(** * Smart-ambulance vitals pipeline: a shallow embedding

    The development embeds the four stages of the repository

      - [artifact_detection.py]  ([detect_and_clean_artifacts]),
      - [anomaly_model.py]       ([extract_features], [detect_anomalies]),
      - [risk_logic.py]          ([calculate_risk_and_alerts], [get_alert_comment]),
      - [api/app.py]             ([predict_risk])

    and proves properties of them.

    Modelling conventions.
      - A float is a [num = option Q]: [Some q] is the finite value [q],
        [None] is NaN.  Arithmetic is exact rational arithmetic; rounding of
        IEEE doubles and infinities are outside the model.  Equality of
        numbers is [Qeq] ([==]).
      - A pandas [Series] is a list; a [DataFrame] that is built from a list
        of dicts is the list of its rows, and the columns a function adds
        are lists of the same length.
      - pandas, numpy and scipy routines ([rolling], [shift], [diff],
        [interpolate], [np.mean], [np.var], [linregress], ...) are modelled
        by their library semantics, each next to its first use. *)

From Stdlib Require Import QArith Qabs Qround Qminmax Lqa Lia String Ascii DecimalString.
From stdpp Require Import base list.

Open Scope Q_scope.

(** ** Floats with NaN *)

Abbreviation num := (option Q) (only parsing).

Definition nan : num := None.

Definition isnan (x : num) : bool :=
  match x with None => true | Some _ => false end.

Definition notna (x : num) : bool := negb (isnan x).

Definition lift2 (f : Q -> Q -> Q) (x y : num) : num :=
  match x, y with
  | Some a, Some b => Some (f a b)
  | _, _ => None
  end.

Definition nadd : num -> num -> num := lift2 Qplus.
Definition nsub : num -> num -> num := lift2 Qminus.
Definition nmul : num -> num -> num := lift2 Qmult.
Definition ndiv : num -> num -> num := lift2 Qdiv.
Definition nabs (x : num) : num := Qabs <$> x.

Definition Qlt_bool (a b : Q) : bool := negb (Qle_bool b a).

(** Comparisons with NaN are false. *)
Definition num_gt (x : num) (c : Q) : bool :=
  match x with Some a => Qlt_bool c a | None => false end.

Definition num_lt (x : num) (c : Q) : bool :=
  match x with Some a => Qlt_bool a c | None => false end.

(** [x.clip(lower, upper)]; NaN stays NaN. *)
Definition Qclip (lower upper a : Q) : Q :=
  if Qlt_bool a lower then lower else if Qlt_bool upper a then upper else a.

Definition clip (lower upper : Q) (x : num) : num := Qclip lower upper <$> x.


(** The number is the finite value [q]. *)
Definition is_val (x : num) (q : Q) : Prop :=
  match x with Some a => a == q | None => False end.

(** ** Series operations (pandas) *)

Abbreviation Series := (list (option Q)) (only parsing).

Definition s_add (a b : Series) : Series := zip_with nadd a b.
Definition s_sub (a b : Series) : Series := zip_with nsub a b.
Definition s_mul (a b : Series) : Series := zip_with nmul a b.
Definition s_addc (a : Series) (c : Q) : Series := (fun x => nadd x (Some c)) <$> a.
Definition s_subc (a : Series) (c : Q) : Series := (fun x => nsub x (Some c)) <$> a.
Definition s_rsubc (c : Q) (a : Series) : Series := (fun x => nsub (Some c) x) <$> a.
Definition s_mulc (a : Series) (c : Q) : Series := (fun x => nmul x (Some c)) <$> a.
Definition s_divc (a : Series) (c : Q) : Series := (fun x => ndiv x (Some c)) <$> a.
Definition s_clip (lower upper : Q) (a : Series) : Series := clip lower upper <$> a.
Definition s_abs (a : Series) : Series := nabs <$> a.
Definition s_gt (a : Series) (c : Q) : list bool := (fun x => num_gt x c) <$> a.
Definition s_lt (a : Series) (c : Q) : list bool := (fun x => num_lt x c) <$> a.
Definition s_and (a b : list bool) : list bool := zip_with andb a b.

(** [s.shift(1)]: every value moves one position down, the first position
    becomes missing, the length is kept. *)
Definition shift1 {A} (s : list A) : list (option A) :=
  take (length s) (None :: (Some <$> s)).

(** [s.fillna(v)]. *)
Definition fillna {A} (v : A) (s : list (option A)) : list A :=
  default v <$> s.

(** [s.diff()]: difference with the previous element, NaN at position 0. *)
Definition diff (s : Series) : Series :=
  zip_with nsub s (fillna nan (shift1 s)).

(** [df.loc[mask, col] = v]. *)
Definition loc_set {A} (mask : list bool) (v : A) (col : list A) : list A :=
  zip_with (fun (m : bool) old => if m then v else old) mask col.

(** [df.loc[mask, col] *= c]. *)
Definition loc_mulc (mask : list bool) (c : Q) (col : Series) : Series :=
  zip_with (fun (m : bool) old => if m then nmul old (Some c) else old) mask col.

(** Row-wise assembly of columns: [fs <*> xs] position by position. *)
Definition zap {A B} (fs : list (A -> B)) (xs : list A) : list B :=
  zip_with (fun f x => f x) fs xs.

(** ** Formatting: the [:.2f] conversion of an f-string

    The value is rounded to two decimals, ties to even, on the exact
    rational; NaN prints as [nan]. *)

Definition round_half_even (a : Q) : Z :=
  let f := Qfloor a in
  let r := a - inject_Z f in
  if Qlt_bool r (1 # 2) then f
  else if Qlt_bool (1 # 2) r then (f + 1)%Z
  else if Z.even f then f else (f + 1)%Z.

Definition digits (n : Z) : string := NilZero.string_of_uint (N.to_uint (Z.to_N n)).

Definition two_digits (n : Z) : string :=
  ((if (n <? 10)%Z then "0" else "") ++ digits n)%string.

Definition format_2f (x : num) : string :=
  match x with
  | None => "nan"
  | Some a =>
      let c := round_half_even (Qabs a * 100) in
      ((if Qlt_bool a 0 then "-" else "")
         ++ digits (c / 100) ++ "." ++ two_digits (c mod 100))%string
  end.

(** * anomaly_model.py: the feature dictionary and the anomaly rows *)

(** The dict returned by [extract_features]. *)
Record Features := {
  heart_rate_mean : num;
  heart_rate_var : num;
  heart_rate_slope : num;
  spo2_mean : num;
  spo2_var : num;
  spo2_slope : num;
  bp_systolic_mean : num;
  bp_systolic_var : num;
  bp_systolic_slope : num;
  confidence_mean : num
}.

(** One dict appended to [anomalies] by [detect_anomalies] (and the single
    row of [temp_df] in [predict_risk]); [feats] is the [**feats] part. *)
Record AnomalyRow := {
  timestamp : num;
  is_anomaly : bool;
  confidence : num;
  reasons : string;
  feats : Features
}.

(** * risk_logic.py *)

(** A row of [risk_df] as [get_alert_comment] sees it. *)
Record RiskRow := {
  row_anomaly : AnomalyRow;
  row_risk_score : num;
  row_final_confidence : num;
  row_risk_threshold_breached : bool;
  row_confidence_acceptable : bool;
  row_persistent_risk : bool;
  row_alert_triggered : bool
}.

(** The returned [risk_df]: the input rows and the columns added to them. *)
Record RiskFrame := {
  anomaly_rows : list AnomalyRow;
  risk_score : Series;
  sensor_stability : Series;
  final_confidence : Series;
  risk_threshold_breached : list bool;
  confidence_acceptable : list bool;
  persistent_risk : list bool;
  alert_triggered : list bool;
  alert_comment : list string
}.

Definition get_alert_comment (row : RiskRow) : string :=
  if row_alert_triggered row then
    ("CRITICAL: High risk (" ++ format_2f (row_risk_score row)
       ++ ") with stable sensor (" ++ format_2f (row_final_confidence row)
       ++ "). " ++ reasons (row_anomaly row))%string
  else if row_risk_threshold_breached row && negb (row_confidence_acceptable row) then
    ("SUPPRESSED: High risk (" ++ format_2f (row_risk_score row)
       ++ ") but low confidence (" ++ format_2f (row_final_confidence row)
       ++ ") due to motion/artifacts.")%string
  else if row_risk_threshold_breached row && negb (row_persistent_risk row) then
    "WAITING: Risk threshold breached but awaiting trend persistence."%string
  else "Normal status."%string.

Definition default_risk_threshold : Q := 0.6.
Definition default_confidence_threshold : Q := 0.7.

Definition calculate_risk_and_alerts
    (anomaly_df : list AnomalyRow) (risk_threshold confidence_threshold : Q)
    : RiskFrame :=
  let column (f : Features -> num) : Series := (fun r => f (feats r)) <$> anomaly_df in
  (* 1. normalized risk score *)
  let hr_risk := s_divc (s_subc (column heart_rate_mean) 75) (120 - 75) in
  let hr_risk := s_mulc (s_clip 0 1 hr_risk) 0.4 in
  let spo2_risk := s_divc (s_rsubc 98 (column spo2_mean)) (98 - 90) in
  let spo2_risk := s_mulc (s_clip 0 1 spo2_risk) 0.4 in
  let bp_risk := s_divc (s_subc (column bp_systolic_mean) 120) (160 - 120) in
  let bp_risk := s_mulc (s_clip 0 1 bp_risk) 0.2 in
  let risk_score := s_clip 0 1 (s_add (s_add hr_risk spo2_risk) bp_risk) in
  (* the column heart_rate_slope is present in every frame of this type *)
  let critical_synergy :=
    s_and (s_gt (column heart_rate_slope) 0.02) (s_lt (column spo2_slope) (-0.005)) in
  let risk_score := loc_mulc critical_synergy 1.2 risk_score in
  let risk_score := s_clip 0 1 risk_score in
  (* 2. confidence score *)
  let sensor_stability :=
    s_rsubc 1.0 (s_clip 0 0.5 (s_divc (column heart_rate_var) 100)) in
  let final_confidence :=
    s_add (s_mulc (confidence <$> anomaly_df) 0.7) (s_mulc sensor_stability 0.3) in
  (* 3. alert rules *)
  let risk_threshold_breached := s_gt risk_score risk_threshold in
  let confidence_acceptable := s_gt final_confidence confidence_threshold in
  let persistent_risk :=
    s_and risk_threshold_breached (fillna false (shift1 risk_threshold_breached)) in
  let alert_triggered := s_and persistent_risk confidence_acceptable in
  let rows :=
    zap (zap (zap (zap (zap (zap (Build_RiskRow <$> anomaly_df) risk_score)
      final_confidence) risk_threshold_breached) confidence_acceptable)
      persistent_risk) alert_triggered in
  {| anomaly_rows := anomaly_df;
     risk_score := risk_score;
     sensor_stability := sensor_stability;
     final_confidence := final_confidence;
     risk_threshold_breached := risk_threshold_breached;
     confidence_acceptable := confidence_acceptable;
     persistent_risk := persistent_risk;
     alert_triggered := alert_triggered;
     alert_comment := get_alert_comment <$> rows |}.

(** * artifact_detection.py *)

Module Vitals.
(** A row of the raw frame ([VitalsData] in app.py, a CSV row elsewhere). *)
Record VitalsData := {
timestamp : num;
heart_rate : num;
spo2 : num;
bp_systolic : num;
bp_diastolic : num;
vibration : num
}.
End Vitals.

Module Clean.
(** The frame [df_clean], column by column. *)
Record DataFrame := {
timestamp : Series;
heart_rate : Series;
spo2 : Series;
bp_systolic : Series;
bp_diastolic : Series;
vibration : Series;
is_motion : list bool;
motion_risk : Series;
hr_artifact : list bool;
spo2_artifact : list bool;
artifact_confidence : Series
}.

(** [len(df)]. *)
Definition len (df : DataFrame) : nat := length (timestamp df).

(** [df.iloc[start:end]]. *)
Definition iloc (start end_ : nat) (df : DataFrame) : DataFrame :=
let slice {A} (c : list A) := take (end_ - start) (drop start c) in
{| timestamp := slice (timestamp df);
 heart_rate := slice (heart_rate df);
 spo2 := slice (spo2 df);
 bp_systolic := slice (bp_systolic df);
 bp_diastolic := slice (bp_diastolic df);
 vibration := slice (vibration df);
 is_motion := slice (is_motion df);
 motion_risk := slice (motion_risk df);
 hr_artifact := slice (hr_artifact df);
 spo2_artifact := slice (spo2_artifact df);
 artifact_confidence := slice (artifact_confidence df) |}.
End Clean.

(** ** Rolling windows (pandas [rolling(window, center=True)]) *)

(** [FixedWindowIndexer.get_window_bounds] at position [i]: the window is
    the half-open range [start, end_), both ends clipped to the frame. *)
Definition get_window_bounds (num_values window_size i : nat) : nat * nat :=
  let offset := ((window_size - 1) / 2)%nat in
  let end_ := (i + 1 + offset)%nat in
  let start := (end_ - window_size)%nat in
  (Nat.min start num_values, Nat.min end_ num_values).

Definition rolling_window {A} (window_size : nat) (s : list A) (i : nat) : list A :=
  let '(start, end_) := get_window_bounds (length s) window_size i in
  take (end_ - start) (drop start s).

(** The observations of a window are its values that are not NaN. *)
Definition observations (w : Series) : list Q := omap id w.

(** [min_periods] defaults to the window size: a position has a value only
    when its window holds that many observations, and is NaN otherwise. *)
Definition rolling (window_size : nat) (agg : list Q -> Q) (s : Series) : Series :=
  (fun i =>
     let obs := observations (rolling_window window_size s i) in
     if (window_size <=? length obs)%nat then Some (agg obs) else None)
    <$> seq 0 (length s).

Definition Qsum (l : list Q) : Q := foldr Qplus 0 l.

Definition Qmean (l : list Q) : Q := Qsum l / inject_Z (Z.of_nat (length l)).

Definition Qmax_list (l : list Q) : Q :=
  match l with
  | [] => 0
  | a :: r => foldr Qmax a r
  end.

(** A boolean column seen as floats, as [rolling] does. *)
Definition astype_float (b : bool) : num := Some (if b then 1 else 0).

(** [s.fillna(v)] on a float column. *)
Definition s_fillna (v : Q) (s : Series) : Series :=
  (fun x => match x with None => Some v | Some _ => x end) <$> s.

(** ** Linear interpolation (pandas [interpolate(method='linear', limit=...)])

    The default direction is forward.  [valid_points] are the positions and
    values that are not NaN ([indices[valid]], [yvalues[valid]]). *)

Definition valid_points (s : Series) : list (nat * Q) :=
  omap (fun p : nat * option Q => (fun v => (p.1, v)) <$> p.2) (imap pair s).

(** [np.interp(x, xp, fp)] for increasing [xp]: the end values outside the
    points, the chord between the two neighbours inside. *)
Fixpoint np_interp (pts : list (nat * Q)) (x : nat) : Q :=
  match pts with
  | [] => 0
  | (x0, y0) :: rest =>
      if (x <=? x0)%nat then y0
      else match rest with
           | [] => y0
           | (x1, y1) :: _ =>
               if (x <? x1)%nat
               then (y1 - y0) / (inject_Z (Z.of_nat x1) - inject_Z (Z.of_nat x0))
                      * (inject_Z (Z.of_nat x) - inject_Z (Z.of_nat x0)) + y0
               else np_interp rest x
           end
  end.

(** [_interp_limit(invalid, fw_limit, 0)]: position [x] keeps its NaN when
    [invalid[max(0, x - fw_limit) : x + 1]] is all true. *)
Definition interp_limit (invalid : list bool) (fw_limit x : nat) : bool :=
  forallb id (take (x + 1 - (x - fw_limit)) (drop (x - fw_limit) invalid)).

(** Position of the first valid value ([None] when there is none). *)
Definition first_valid_index (s : Series) : option nat :=
  fst <$> head (valid_points s).

Definition interpolate_linear (limit : nat) (s : Series) : Series :=
  let invalid := isnan <$> s in
  match first_valid_index s with
  | None => s                                 (* not valid.any() *)
  | Some first =>
      if forallb notna s then s               (* valid.all() *)
      else
        let pts := valid_points s in
        imap (fun x v =>
                match v with
                | Some _ => v
                | None =>
                    (* preserve_nans = start_nans | _interp_limit(...) *)
                    if (x <? first)%nat || interp_limit invalid limit x
                    then None
                    else Some (np_interp pts x)
                end) s
  end.

Definition default_motion_threshold : Q := 0.6.

Definition detect_and_clean_artifacts
    (df : list Vitals.VitalsData) (motion_threshold : Q) : Clean.DataFrame :=
  let heart_rate := Vitals.heart_rate <$> df in
  let spo2 := Vitals.spo2 <$> df in
  let vibration := Vitals.vibration <$> df in
  (* 1. windows with high vibration *)
  let is_motion := s_gt vibration motion_threshold in
  let motion_risk := s_fillna 0 (rolling 5 Qmax_list (astype_float <$> is_motion)) in
  (* 2. artifacts coupled with motion *)
  let hr_artifact := (fun _ => false) <$> df in
  let spo2_artifact := (fun _ => false) <$> df in
  let spo2_diff := s_abs (diff spo2) in
  let spo2_artifact :=
    loc_set (s_and (s_gt motion_risk 0.5) (s_gt spo2_diff 2.0)) true spo2_artifact in
  let hr_diff := s_abs (diff heart_rate) in
  let hr_artifact :=
    loc_set (s_and (s_gt motion_risk 0.5) (s_gt hr_diff 5.0)) true hr_artifact in
  let spo2_artifact :=
    loc_set (s_and (s_gt motion_risk 0.8) (s_lt spo2 85)) true spo2_artifact in
  (* 3. suppress artifacts and interpolate *)
  let heart_rate := loc_set hr_artifact nan heart_rate in
  let spo2 := loc_set spo2_artifact nan spo2 in
  let heart_rate := interpolate_linear 30 heart_rate in
  let spo2 := interpolate_linear 30 spo2 in
  (* 4. artifact confidence *)
  let artifact_confidence :=
    s_rsubc 1.0 (s_clip 0 1 (rolling 60 Qmean vibration)) in
  {| Clean.timestamp := Vitals.timestamp <$> df;
     Clean.heart_rate := heart_rate;
     Clean.spo2 := spo2;
     Clean.bp_systolic := Vitals.bp_systolic <$> df;
     Clean.bp_diastolic := Vitals.bp_diastolic <$> df;
     Clean.vibration := vibration;
     Clean.is_motion := is_motion;
     Clean.motion_risk := motion_risk;
     Clean.hr_artifact := hr_artifact;
     Clean.spo2_artifact := spo2_artifact;
     Clean.artifact_confidence := artifact_confidence |}.

(** * anomaly_model.py *)

(** [np.mean(v)] and [np.var(v)] on a float array: NaN as soon as one entry
    is NaN, and on the empty array. *)
Definition np_mean (v : Series) : num :=
  if forallb notna v && negb (length v =? 0)%nat
  then Some (Qmean (observations v)) else None.

Definition np_var (v : Series) : num :=
  if forallb notna v && negb (length v =? 0)%nat
  then
    let x := observations v in
    let m := Qmean x in
    Some (Qmean ((fun a => (a - m) * (a - m)) <$> x))
  else None.

(** [np.arange(n)]. *)
Definition np_arange (n : nat) : list Q := (fun k => inject_Z (Z.of_nat k)) <$> seq 0 n.

(** An entry of [np.cov(x, y, bias=1)]: the mean product of deviations. *)
Definition cov (x y : list Q) : Q :=
  let xmean := Qmean x in
  let ymean := Qmean y in
  Qmean (zip_with (fun a b => (a - xmean) * (b - ymean)) x y).

(** The slope returned by [scipy.stats.linregress(x, y)]: [ssxym / ssxm]. *)
Definition linregress_slope (x y : list Q) : Q :=
  let ssxm := cov x x in
  let ssxym := cov x y in
  ssxym / ssxm.

(** [Series.mean()]: NaN entries are skipped; NaN when nothing is left. *)
Definition pd_mean (s : Series) : num :=
  let obs := observations s in
  if (length obs =? 0)%nat then None else Some (Qmean obs).

(** The three features of one column: mean, variance and slope. *)
Definition column_features (v : Series) : num * num * num :=
  let t := np_arange (length v) in
  let mean := np_mean v in
  let var := np_var v in
  let slope :=
    if (1 <? length v)%nat && negb (existsb isnan v)
    then Some (linregress_slope t (observations v))
    else Some 0.0 in
  (mean, var, slope).

Definition extract_features (window : Clean.DataFrame) : Features :=
  let '(hr_mean, hr_var, hr_slope) := column_features (Clean.heart_rate window) in
  let '(sp_mean, sp_var, sp_slope) := column_features (Clean.spo2 window) in
  let '(bp_mean, bp_var, bp_slope) := column_features (Clean.bp_systolic window) in
  {| heart_rate_mean := hr_mean;
     heart_rate_var := hr_var;
     heart_rate_slope := hr_slope;
     spo2_mean := sp_mean;
     spo2_var := sp_var;
     spo2_slope := sp_slope;
     bp_systolic_mean := bp_mean;
     bp_systolic_var := bp_var;
     bp_systolic_slope := bp_slope;
     confidence_mean := pd_mean (Clean.artifact_confidence window) |}.

(** [range(0, stop, step)] for a positive step: [ceil(stop / step)] values
    when [stop] is positive, none otherwise. *)
Definition py_range (stop : Z) (step : nat) : list nat :=
  (fun k => (k * step)%nat)
    <$> seq 0 (Z.to_nat ((stop + Z.of_nat step - 1) / Z.of_nat step)).

(** The rule-based detection: the labels of the rules that fire, in order
    (the same three tests are written out in [detect_anomalies] and in
    [predict_risk]). *)
Definition rule_reasons (feats : Features) : list string :=
  (if num_gt (heart_rate_slope feats) 0.05 && num_gt (heart_rate_mean feats) 100
   then ["Rising HR trend"%string] else [])
  ++ (if num_lt (spo2_slope feats) (-0.01) && num_lt (spo2_mean feats) 95
      then ["Declining SpO2 trend"%string] else [])
  ++ (if num_gt (bp_systolic_slope feats) 0.1 && num_gt (bp_systolic_mean feats) 140
      then ["Rising Systolic BP"%string] else []).

(** The start offsets visited by the loop of [detect_anomalies]. *)
Definition window_starts (length_df window_size step_size : nat) : list nat :=
  py_range (Z.of_nat length_df - Z.of_nat window_size) step_size.

(** The body of the loop for one start offset; [None] is the IndexError of
    [window['timestamp'].iloc[-1]] on an empty window. *)
Definition detect_window (df : Clean.DataFrame) (window_size start : nat)
    : option AnomalyRow :=
  let end_ := (start + window_size)%nat in
  let window := Clean.iloc start end_ df in
  let feats := extract_features window in
  timestamp ← last (Clean.timestamp window);
  let reasons := rule_reasons feats in
  let is_anomaly := negb (length reasons =? 0)%nat in
  Some {| timestamp := timestamp;
          is_anomaly := is_anomaly;
          confidence := confidence_mean feats;
          reasons := String.concat "; " reasons;
          feats := feats |}.

(** [None] when the call raises: a zero step ([range] refuses it) or an
    empty window. *)
Definition detect_anomalies (df : Clean.DataFrame) (window_size step_size : nat)
    : option (list AnomalyRow) :=
  if (step_size =? 0)%nat then None
  else mapM (detect_window df window_size)
            (window_starts (Clean.len df) window_size step_size).

(** * api/app.py *)

Inductive HTTPException := HTTPError (status_code : nat).

Record PredictionResponse := {
  anomaly : bool;
  response_risk_score : Q;
  response_confidence : Q;
  details : string
}.

(** [float(x)] followed by [if np.isnan(x): x = 0.0]. *)
Definition nan_to_zero (x : num) : Q := default 0.0 x.

(** The handler of [POST /predict].  Every exception raised in the [try]
    block, the 400 of the size check included, is caught by
    [except Exception] and leaves as a 500. *)
Definition predict_risk (data : list Vitals.VitalsData)
    : HTTPException + PredictionResponse :=
  if (length data <? 10)%nat then inl (HTTPError 500)
  else
    let df := data in
    let df_clean := detect_and_clean_artifacts df default_motion_threshold in
    let feats := extract_features df_clean in
    match last (Vitals.timestamp <$> df) with
    | None => inl (HTTPError 500)
    | Some ts =>
        let temp_df :=
          [ {| timestamp := ts;
               is_anomaly := false;
               confidence := confidence_mean feats;
               reasons := String.concat "; " (rule_reasons feats);
               feats := feats |} ] in
        let risk_df :=
          calculate_risk_and_alerts temp_df
            default_risk_threshold default_confidence_threshold in
        match risk_score risk_df !! 0%nat, final_confidence risk_df !! 0%nat,
              alert_triggered risk_df !! 0%nat, alert_comment risk_df !! 0%nat with
        | Some rs, Some fc, Some alert, Some comment =>
            inr {| anomaly := alert;
                   response_risk_score := nan_to_zero rs;
                   response_confidence := nan_to_zero fc;
                   details := comment |}
        | _, _, _, _ => inl (HTTPError 500)
        end
    end.

(** * Row-wise readings used in the proofs *)

(** The risk score of one window, as the column operations of
    [calculate_risk_and_alerts] compute it. *)
Definition window_risk (f : Features) : num :=
  let hr_risk :=
    nmul (clip 0 1 (ndiv (nsub (heart_rate_mean f) (Some 75)) (Some (120 - 75)))) (Some 0.4) in
  let spo2_risk :=
    nmul (clip 0 1 (ndiv (nsub (Some 98) (spo2_mean f)) (Some (98 - 90)))) (Some 0.4) in
  let bp_risk :=
    nmul (clip 0 1 (ndiv (nsub (bp_systolic_mean f) (Some 120)) (Some (160 - 120)))) (Some 0.2) in
  let score := clip 0 1 (nadd (nadd hr_risk spo2_risk) bp_risk) in
  clip 0 1
    (if num_gt (heart_rate_slope f) 0.02 && num_lt (spo2_slope f) (-0.005)
     then nmul score (Some 1.2) else score).

Definition window_stability (f : Features) : num :=
  nsub (Some 1.0) (clip 0 0.5 (ndiv (heart_rate_var f) (Some 100))).

Definition window_confidence (r : AnomalyRow) : num :=
  nadd (nmul (confidence r) (Some 0.7)) (nmul (window_stability (feats r)) (Some 0.3)).

(** The breach flag of the window before position [i]; there is none
    before the first window, and the flag is then false. *)
Definition prior_breach (df : list AnomalyRow) (rt : Q) (i : nat) : bool :=
  match i with
  | O => false
  | S j =>
      match df !! j with
      | Some r => num_gt (window_risk (feats r)) rt
      | None => false
      end
  end.

(** Row [i] of [risk_df] when [get_alert_comment] is applied to it. *)
Definition risk_row (df : list AnomalyRow) (rt ct : Q) (i : nat) (r : AnomalyRow)
    : RiskRow :=
  let breached := num_gt (window_risk (feats r)) rt in
  let acceptable := num_gt (window_confidence r) ct in
  let persistent := breached && prior_breach df rt i in
  {| row_anomaly := r;
     row_risk_score := window_risk (feats r);
     row_final_confidence := window_confidence r;
     row_risk_threshold_breached := breached;
     row_confidence_acceptable := acceptable;
     row_persistent_risk := persistent;
     row_alert_triggered := persistent && acceptable |}.

(** The window of the two-window scenario: heart_rate_mean 115,
    heart_rate_slope 0.08, spo2_mean 90, spo2_slope -0.02, a systolic mean
    that does not exceed 120, confidence 0.9, heart_rate_var 5. *)
Definition matches_scenario (r : AnomalyRow) : Prop :=
  is_val (heart_rate_mean (feats r)) 115
  /\ is_val (heart_rate_slope (feats r)) 0.08
  /\ is_val (spo2_mean (feats r)) 90
  /\ is_val (spo2_slope (feats r)) (-0.02)
  /\ (exists b, bp_systolic_mean (feats r) = Some b /\ b <= 120)
  /\ is_val (confidence_mean (feats r)) 0.9
  /\ is_val (confidence r) 0.9
  /\ is_val (heart_rate_var (feats r)) 5.

Definition scenario_window : AnomalyRow :=
  {| timestamp := Some 29;
     is_anomaly := true;
     confidence := Some 0.9;
     reasons := "Rising HR trend; Declining SpO2 trend";
     feats :=
       {| heart_rate_mean := Some 115; heart_rate_var := Some 5;
          heart_rate_slope := Some 0.08;
          spo2_mean := Some 90; spo2_var := Some 1; spo2_slope := Some (-0.02);
          bp_systolic_mean := Some 118; bp_systolic_var := Some 2;
          bp_systolic_slope := Some 0;
          confidence_mean := Some 0.9 |} |}.

(** A window at maximal risk whose sensors are not trusted. *)
Definition saturated_window : AnomalyRow :=
  {| timestamp := Some 29;
     is_anomaly := true;
     confidence := Some 0.5;
     reasons := "Rising HR trend";
     feats :=
       {| heart_rate_mean := Some 130; heart_rate_var := Some 0;
          heart_rate_slope := Some 0.08;
          spo2_mean := Some 85; spo2_var := Some 1; spo2_slope := Some (-0.02);
          bp_systolic_mean := Some 170; bp_systolic_var := Some 2;
          bp_systolic_slope := Some 0;
          confidence_mean := Some 0.5 |} |}.

(** A request of twelve quiet samples with a rising heart rate. *)
Definition sample_request : list Vitals.VitalsData :=
  (fun k =>
     {| Vitals.timestamp := Some (inject_Z (Z.of_nat k));
        Vitals.heart_rate := Some (100 + inject_Z (Z.of_nat k));
        Vitals.spo2 := Some 90;
        Vitals.bp_systolic := Some 120;
        Vitals.bp_diastolic := Some 80;
        Vitals.vibration := Some 0 |}) <$> seq 0 12.

(** ** Least squares *)

(** A count as a rational. *)
Definition nQ (n : nat) : Q := inject_Z (Z.of_nat n).

(** A strictly increasing series: every value is below its successor. *)
Fixpoint increasing (l : list Q) : Prop :=
  match l with
  | a :: (b :: _) as r => a < b /\ increasing r
  | _ => True
  end.

(** [n * sum(x * y) - sum(x) * sum(y)], which is [n * n * cov x y]. *)
Definition cross_sum (x y : list Q) : Q :=
  nQ (length x) * Qsum (zip_with Qmult x y) - Qsum x * Qsum y.

(** A strictly decreasing series: every value is above its successor. *)
Fixpoint decreasing (l : list Q) : Prop :=
  match l with
  | a :: (b :: _) as r => b < a /\ decreasing r
  | _ => True
  end.

(** A window given by its heart-rate and confidence columns; the other
    columns are steady. *)
Definition window_of (hr conf : Series) : Clean.DataFrame :=
  let steady (q : Q) : Series := (fun _ => Some q) <$> hr in
  {| Clean.timestamp := (fun k => Some (nQ k)) <$> seq 0 (length hr);
     Clean.heart_rate := hr;
     Clean.spo2 := steady 98;
     Clean.bp_systolic := steady 120;
     Clean.bp_diastolic := steady 80;
     Clean.vibration := steady 0;
     Clean.is_motion := (fun _ => false) <$> hr;
     Clean.motion_risk := steady 0;
     Clean.hr_artifact := (fun _ => false) <$> hr;
     Clean.spo2_artifact := (fun _ => false) <$> hr;
     Clean.artifact_confidence := conf |}.

(** A window given by its three signal columns, with full confidence. *)
Definition signals_window (hr sp bp : Series) : Clean.DataFrame :=
  {| Clean.timestamp := (fun k => Some (nQ k)) <$> seq 0 (length hr);
     Clean.heart_rate := hr;
     Clean.spo2 := sp;
     Clean.bp_systolic := bp;
     Clean.bp_diastolic := (fun _ => Some 80) <$> hr;
     Clean.vibration := (fun _ => Some 0) <$> hr;
     Clean.is_motion := (fun _ => false) <$> hr;
     Clean.motion_risk := (fun _ => Some 0) <$> hr;
     Clean.hr_artifact := (fun _ => false) <$> hr;
     Clean.spo2_artifact := (fun _ => false) <$> hr;
     Clean.artifact_confidence := (fun _ => Some 1) <$> hr |}.

(** A three-sample window whose middle heart rate is unknown. *)
Definition gap_window : Clean.DataFrame :=
  window_of [Some 80; None; Some 90] [Some 1; Some 1; Some 1].

(** [n] quiet samples with steady vitals. *)
Definition steady_samples (n : nat) : list Vitals.VitalsData :=
  (fun k =>
     {| Vitals.timestamp := Some (nQ k);
        Vitals.heart_rate := Some 80;
        Vitals.spo2 := Some 98;
        Vitals.bp_systolic := Some 120;
        Vitals.bp_diastolic := Some 80;
        Vitals.vibration := Some 0 |}) <$> seq 0 n.

(** Sixty quiet samples followed by one jolt; the heart rate steps up by
    15 at position 58. *)
Definition tail_bump_samples : list Vitals.VitalsData :=
  (fun k =>
     {| Vitals.timestamp := Some (nQ k);
        Vitals.heart_rate := Some (if (k <? 58)%nat then 80 else 95);
        Vitals.spo2 := Some 98;
        Vitals.bp_systolic := Some 120;
        Vitals.bp_diastolic := Some 80;
        Vitals.vibration := Some (if (k <? 60)%nat then 0 else 1) |}) <$> seq 0 61.



(** A quiet stream of 33 samples whose heart rate and spo2 drop out for 31
    samples, positions 1 to 31; the heart rate is 80 before and 112 after. *)
Definition long_gap_samples : list Vitals.VitalsData :=
  (fun k =>
     let known := (k =? 0)%nat || (k =? 32)%nat in
     {| Vitals.timestamp := Some (nQ k);
        Vitals.heart_rate := if known then Some (80 + nQ k) else None;
        Vitals.spo2 := if known then Some 98 else None;
        Vitals.bp_systolic := Some 120;
        Vitals.bp_diastolic := Some 80;
        Vitals.vibration := Some 0 |}) <$> seq 0 33.

(** A window whose heart-rate mean is unknown. *)
Definition unknown_window : AnomalyRow :=
  {| timestamp := Some 29;
     is_anomaly := false;
     confidence := Some 0.9;
     reasons := "";
     feats :=
       {| heart_rate_mean := None; heart_rate_var := None;
          heart_rate_slope := Some 0;
          spo2_mean := Some 85; spo2_var := Some 1; spo2_slope := Some (-0.02);
          bp_systolic_mean := Some 170; bp_systolic_var := Some 2;
          bp_systolic_slope := Some 0;
          confidence_mean := Some 0.9 |} |}.

(** A window with a fast but isolated heart rate. *)
Definition tachycardia_window : AnomalyRow :=
  {| timestamp := Some 29;
     is_anomaly := true;
     confidence := Some 0.95;
     reasons := "Rising HR trend";
     feats :=
       {| heart_rate_mean := Some 130; heart_rate_var := Some 4;
          heart_rate_slope := Some 0.08;
          spo2_mean := Some 99; spo2_var := Some 0; spo2_slope := Some (-0.02);
          bp_systolic_mean := Some 118; bp_systolic_var := Some 2;
          bp_systolic_slope := Some 0;
          confidence_mean := Some 0.95 |} |}.


(** * Properties *)

(** ** Numbers *)

Lemma Qlt_bool_iff a b : Qlt_bool a b = true <-> a < b.
Proof.
  unfold Qlt_bool. rewrite negb_true_iff.
  destruct (Qle_bool b a) eqn:E.
  - apply Qle_bool_iff in E. split; [discriminate | intros H; exfalso; lra].
  - split; [intros _ | reflexivity].
    destruct (Qlt_le_dec a b) as [H|H]; [exact H|].
    apply Qle_bool_iff in H. congruence.
Qed.

Lemma Qlt_bool_false a b : Qlt_bool a b = false <-> b <= a.
Proof.
  unfold Qlt_bool. rewrite negb_false_iff. apply Qle_bool_iff.
Qed.

Lemma Qclip_bounds lower upper a :
  lower <= upper -> lower <= Qclip lower upper a /\ Qclip lower upper a <= upper.
Proof.
  intros Hlu. unfold Qclip.
  destruct (Qlt_bool a lower) eqn:E1; [lra|].
  destruct (Qlt_bool upper a) eqn:E2; [lra|].
  apply Qlt_bool_false in E1, E2. lra.
Qed.

Lemma Qclip_inside lower upper a :
  lower <= a -> a <= upper -> Qclip lower upper a = a.
Proof.
  intros H1 H2. unfold Qclip.
  destruct (Qlt_bool a lower) eqn:E1; [apply Qlt_bool_iff in E1; lra|].
  destruct (Qlt_bool upper a) eqn:E2; [apply Qlt_bool_iff in E2; lra|].
  reflexivity.
Qed.

Lemma Qclip_below lower upper a : a < lower -> Qclip lower upper a = lower.
Proof.
  intros H. unfold Qclip.
  apply Qlt_bool_iff in H. now rewrite H.
Qed.

Lemma Qclip_above lower upper a :
  lower <= upper -> upper < a -> Qclip lower upper a = upper.
Proof.
  intros Hlu H. unfold Qclip.
  destruct (Qlt_bool a lower) eqn:E1; [apply Qlt_bool_iff in E1; lra|].
  apply Qlt_bool_iff in H. now rewrite H.
Qed.

#[export] Instance Qlt_bool_proper : Proper (Qeq ==> Qeq ==> eq) Qlt_bool.
Proof. intros a b Hab c d Hcd. unfold Qlt_bool. now rewrite Hab, Hcd. Qed.

#[export] Instance Qclip_proper : Proper (Qeq ==> Qeq ==> Qeq ==> Qeq) Qclip.
Proof.
  intros l l' Hl u u' Hu a a' Ha. unfold Qclip.
  rewrite (Qlt_bool_proper _ _ Ha _ _ Hl), (Qlt_bool_proper _ _ Hu _ _ Ha).
  destruct (Qlt_bool a' l'); [exact Hl|].
  destruct (Qlt_bool u' a'); [exact Hu | exact Ha].
Qed.

Lemma Qclip_le_lower lower upper a :
  lower <= upper -> a <= lower -> Qclip lower upper a == lower.
Proof.
  intros Hlu Ha. unfold Qclip.
  destruct (Qlt_bool a lower) eqn:E1; [reflexivity|].
  apply Qlt_bool_false in E1.
  destruct (Qlt_bool upper a) eqn:E2; [apply Qlt_bool_iff in E2; lra | lra].
Qed.


(** ** Series *)

Lemma fillna_shift1 {A} (v : A) (s : list A) :
  fillna v (shift1 s) = take (length s) (v :: s).
Proof.
  unfold fillna, shift1. rewrite fmap_take, fmap_cons.
  assert (E : default v <$> (Some <$> s) = s).
  { induction s as [|a s IH]; [done|]. rewrite !fmap_cons, IH. done. }
  by rewrite E.
Qed.

Lemma lookup_fillna_shift1_0 {A} (v a : A) (s : list A) :
  fillna v (shift1 (a :: s)) !! 0%nat = Some v.
Proof. now rewrite fillna_shift1. Qed.

Lemma lookup_fillna_shift1_S {A} (v : A) (s : list A) (i : nat) :
  (S i < length s)%nat -> fillna v (shift1 s) !! S i = s !! i.
Proof.
  intros H. rewrite fillna_shift1, lookup_take.
  destruct (decide (S i < length s)%nat); [reflexivity | contradiction].
Qed.

Lemma length_fillna_shift1 {A} (v : A) (s : list A) :
  length (fillna v (shift1 s)) = length s.
Proof. rewrite fillna_shift1, length_take. simpl. lia. Qed.

Lemma lookup_zap {A B} (fs : list (A -> B)) (xs : list A) (i : nat) f x :
  fs !! i = Some f -> xs !! i = Some x -> zap fs xs !! i = Some (f x).
Proof.
  intros Hf Hx. unfold zap. rewrite lookup_zip_with, Hf. simpl. now rewrite Hx.
Qed.

(** ** risk_logic.py, column by column *)

Lemma zip_with_fmap_same {A B C D} (f : B -> C -> D) (g : A -> B) (h : A -> C) (l : list A) :
  zip_with f (g <$> l) (h <$> l) = (fun x => f (g x) (h x)) <$> l.
Proof. rewrite zip_with_fmap_l, zip_with_fmap_r, zip_with_diag. reflexivity. Qed.

Ltac columns :=
  unfold s_clip, loc_mulc, loc_set, s_and, s_gt, s_lt, s_add, s_sub, s_mul, s_abs,
         s_mulc, s_divc, s_subc, s_addc, s_rsubc, s_fillna;
  repeat (rewrite <- list_fmap_compose || rewrite zip_with_fmap_same).

Section risk_columns.
Variables (df : list AnomalyRow) (rt ct : Q).

Lemma risk_score_rows :
risk_score (calculate_risk_and_alerts df rt ct) = (fun r => window_risk (feats r)) <$> df.
Proof.
unfold calculate_risk_and_alerts; cbn [risk_score]. columns.
apply list_fmap_ext. intros i r _. unfold window_risk. cbn.
destruct (num_gt _ _ && num_lt _ _); reflexivity.
Qed.

Lemma sensor_stability_rows :
sensor_stability (calculate_risk_and_alerts df rt ct)
= (fun r => window_stability (feats r)) <$> df.
Proof.
unfold calculate_risk_and_alerts; cbn [sensor_stability]. columns. reflexivity.
Qed.

Lemma final_confidence_rows :
final_confidence (calculate_risk_and_alerts df rt ct) = window_confidence <$> df.
Proof.
unfold calculate_risk_and_alerts; cbn [final_confidence]. columns. reflexivity.
Qed.

Lemma risk_threshold_breached_rows :
risk_threshold_breached (calculate_risk_and_alerts df rt ct)
= (fun r => num_gt (window_risk (feats r)) rt) <$> df.
Proof.
change (risk_threshold_breached (calculate_risk_and_alerts df rt ct))
with (s_gt (risk_score (calculate_risk_and_alerts df rt ct)) rt).
rewrite risk_score_rows. columns. reflexivity.
Qed.

Lemma confidence_acceptable_rows :
confidence_acceptable (calculate_risk_and_alerts df rt ct)
= (fun r => num_gt (window_confidence r) ct) <$> df.
Proof.
change (confidence_acceptable (calculate_risk_and_alerts df rt ct))
with (s_gt (final_confidence (calculate_risk_and_alerts df rt ct)) ct).
rewrite final_confidence_rows. columns. reflexivity.
Qed.

Lemma persistent_risk_eq :
persistent_risk (calculate_risk_and_alerts df rt ct)
= s_and (risk_threshold_breached (calculate_risk_and_alerts df rt ct))
(fillna false (shift1 (risk_threshold_breached (calculate_risk_and_alerts df rt ct)))).
Proof. reflexivity. Qed.

Lemma alert_triggered_eq :
alert_triggered (calculate_risk_and_alerts df rt ct)
= s_and (persistent_risk (calculate_risk_and_alerts df rt ct))
(confidence_acceptable (calculate_risk_and_alerts df rt ct)).
Proof. reflexivity. Qed.
End risk_columns.

Section risk_rows.
Variables (df : list AnomalyRow) (rt ct : Q).
Variables (i : nat) (r : AnomalyRow).
Hypothesis Hr : df !! i = Some r.

Lemma risk_score_lookup :
risk_score (calculate_risk_and_alerts df rt ct) !! i = Some (window_risk (feats r)).
Proof. rewrite risk_score_rows, list_lookup_fmap, Hr. reflexivity. Qed.

Lemma sensor_stability_lookup :
sensor_stability (calculate_risk_and_alerts df rt ct) !! i
= Some (window_stability (feats r)).
Proof. rewrite sensor_stability_rows, list_lookup_fmap, Hr. reflexivity. Qed.

Lemma final_confidence_lookup :
final_confidence (calculate_risk_and_alerts df rt ct) !! i = Some (window_confidence r).
Proof. rewrite final_confidence_rows, list_lookup_fmap, Hr. reflexivity. Qed.

Lemma risk_threshold_breached_lookup :
risk_threshold_breached (calculate_risk_and_alerts df rt ct) !! i
= Some (num_gt (window_risk (feats r)) rt).
Proof. rewrite risk_threshold_breached_rows, list_lookup_fmap, Hr. reflexivity. Qed.

Lemma confidence_acceptable_lookup :
confidence_acceptable (calculate_risk_and_alerts df rt ct) !! i
= Some (num_gt (window_confidence r) ct).
Proof. rewrite confidence_acceptable_rows, list_lookup_fmap, Hr. reflexivity. Qed.

Lemma shifted_breach_lookup :
fillna false (shift1 (risk_threshold_breached (calculate_risk_and_alerts df rt ct))) !! i
= Some (prior_breach df rt i).
Proof.
assert (Hi : (i < length df)%nat) by (eapply lookup_lt_Some; exact Hr).
rewrite risk_threshold_breached_rows.
destruct i as [|j].
- destruct df as [|r0 df']; [discriminate|]. reflexivity.
- rewrite lookup_fillna_shift1_S by (rewrite length_fmap; exact Hi).
rewrite list_lookup_fmap. simpl.
destruct (lookup_lt_is_Some_2 df j ltac:(lia)) as [r' Hr'].
rewrite Hr'. reflexivity.
Qed.

Lemma persistent_risk_lookup :
persistent_risk (calculate_risk_and_alerts df rt ct) !! i
= Some (num_gt (window_risk (feats r)) rt && prior_breach df rt i).
Proof.
rewrite persistent_risk_eq. unfold s_and.
rewrite lookup_zip_with, shifted_breach_lookup, risk_threshold_breached_lookup.
reflexivity.
Qed.

Lemma alert_triggered_lookup :
alert_triggered (calculate_risk_and_alerts df rt ct) !! i
= Some (row_alert_triggered (risk_row df rt ct i r)).
Proof.
rewrite alert_triggered_eq. unfold s_and.
rewrite lookup_zip_with, confidence_acceptable_lookup, persistent_risk_lookup.
reflexivity.
Qed.

Lemma alert_comment_lookup :
alert_comment (calculate_risk_and_alerts df rt ct) !! i
= Some (get_alert_comment (risk_row df rt ct i r)).
Proof.
pose proof risk_score_lookup as H1.
pose proof final_confidence_lookup as H2.
pose proof risk_threshold_breached_lookup as H3.
pose proof confidence_acceptable_lookup as H4.
pose proof persistent_risk_lookup as H5.
pose proof alert_triggered_lookup as H6.
unfold calculate_risk_and_alerts in *.
cbn [risk_score final_confidence risk_threshold_breached confidence_acceptable
 persistent_risk alert_triggered alert_comment] in *.
rewrite list_lookup_fmap.
match goal with |- _ <$> ?l !! i = _ =>
assert (E : l !! i = Some (risk_row df rt ct i r)); [|rewrite E; reflexivity] end.
unfold risk_row.
apply lookup_zap; [|exact H6].
apply lookup_zap; [|exact H5].
apply lookup_zap; [|exact H4].
apply lookup_zap; [|exact H3].
apply lookup_zap; [|exact H2].
apply lookup_zap; [|exact H1].
rewrite list_lookup_fmap, Hr. reflexivity.
Qed.
End risk_rows.

(** ** The alert state machine *)

(** C3.  In every anomaly sequence an alert at window [i] implies that the
    risk threshold is breached at window [i] and at window [i - 1], which
    must exist; the first window of a sequence never alerts. *)
Theorem alert_requires_two_consecutive_breaches (df : list AnomalyRow) (rt ct : Q) :
  let rf := calculate_risk_and_alerts df rt ct in
  (forall i, alert_triggered rf !! i = Some true ->
     risk_threshold_breached rf !! i = Some true
     /\ exists j, i = S j /\ risk_threshold_breached rf !! j = Some true)
  /\ head (alert_triggered rf) = (fun _ => false) <$> head df.
Proof.
  intros rf. subst rf. split.
  - intros i Hi.
    assert (Hlen : (i < length df)%nat).
    { apply lookup_lt_Some in Hi.
      rewrite alert_triggered_eq in Hi. unfold s_and in Hi.
      rewrite length_zip_with, persistent_risk_eq in Hi. unfold s_and in Hi.
      rewrite length_zip_with, risk_threshold_breached_rows, length_fmap in Hi. lia. }
    destruct (lookup_lt_is_Some_2 df i Hlen) as [r Hr].
    rewrite (alert_triggered_lookup df rt ct i r Hr) in Hi.
    injection Hi as Hi. cbn in Hi.
    apply andb_true_iff in Hi as [Hp _].
    apply andb_true_iff in Hp as [Hb Hprev].
    split.
    + rewrite (risk_threshold_breached_lookup df rt ct i r Hr), Hb. reflexivity.
    + destruct i as [|j]; [discriminate|]. exists j. split; [reflexivity|].
      simpl in Hprev. destruct (df !! j) as [r'|] eqn:Hr'; [|discriminate].
      rewrite (risk_threshold_breached_lookup df rt ct j r' Hr'), Hprev. reflexivity.
  - destruct df as [|r df']; [reflexivity|].
    rewrite head_lookup.
    rewrite (alert_triggered_lookup (r :: df') rt ct 0 r eq_refl).
    cbn. rewrite andb_false_r. reflexivity.
Qed.

Lemma alert_requires_two_consecutive_breaches_witness :
  let rf := calculate_risk_and_alerts [scenario_window; scenario_window]
              default_risk_threshold default_confidence_threshold in
  alert_triggered rf !! 1%nat = Some true
  /\ risk_threshold_breached rf !! 1%nat = Some true
  /\ exists j, 1%nat = S j /\ risk_threshold_breached rf !! j = Some true.
Proof.
  intros rf. split; [vm_compute; reflexivity|].
  apply (proj1 (alert_requires_two_consecutive_breaches
                  [scenario_window; scenario_window]
                  default_risk_threshold default_confidence_threshold) 1%nat).
  vm_compute; reflexivity.
Defined.



(** ** The two-window scenario *)

Lemma scenario_window_risk (r : AnomalyRow) :
  matches_scenario r -> is_val (window_risk (feats r)) (68 # 75).
Proof.
  intros (Hhm & Hhs & Hsm & Hss & (b & Hb & Hble) & _ & _ & _).
  unfold window_risk. rewrite Hb.
  destruct (heart_rate_mean (feats r)) as [hm|]; [|contradiction].
  destruct (heart_rate_slope (feats r)) as [hs|]; [|contradiction].
  destruct (spo2_mean (feats r)) as [sm|]; [|contradiction].
  destruct (spo2_slope (feats r)) as [ss|]; [|contradiction].
  simpl in Hhm, Hhs, Hsm, Hss. cbn.
  assert (Hgt : Qlt_bool 0.02 hs = true) by (apply Qlt_bool_iff; lra).
  assert (Hlt : Qlt_bool ss (-0.005) = true) by (apply Qlt_bool_iff; lra).
  rewrite Hgt, Hlt. cbn.
  assert (Hbp : Qclip 0 1 ((b - 120) / (160 - 120)) == 0).
  { apply Qclip_le_lower; [lra|].
    assert (E : (b - 120) / (160 - 120) == (b - 120) * (1 # 40)) by field.
    rewrite E. lra. }
  rewrite Hbp, Hhm, Hsm. reflexivity.
Qed.

Lemma scenario_window_stability (r : AnomalyRow) :
  matches_scenario r -> is_val (window_stability (feats r)) 0.95.
Proof.
  intros (_ & _ & _ & _ & _ & _ & _ & Hv).
  unfold window_stability.
  destruct (heart_rate_var (feats r)) as [hv|]; [|contradiction].
  simpl in Hv. cbn. rewrite Hv. reflexivity.
Qed.

Lemma scenario_window_confidence (r : AnomalyRow) :
  matches_scenario r -> is_val (window_confidence r) 0.915.
Proof.
  intros H. pose proof (scenario_window_stability r H) as Hst.
  destruct H as (_ & _ & _ & _ & _ & _ & Hc & _).
  unfold window_confidence.
  destruct (window_stability (feats r)) as [st|]; [|contradiction].
  destruct (confidence r) as [c|]; [|contradiction].
  simpl in *. rewrite Hst, Hc. reflexivity.
Qed.

Lemma scenario_window_matches : matches_scenario scenario_window.
Proof.
  unfold matches_scenario, scenario_window; simpl.
  repeat split; try reflexivity.
  exists 118. split; [reflexivity | vm_compute; discriminate].
Defined.

(** C2 (as amended).  Two consecutive windows of the scenario each get
    risk_score 68/75 (about 0.9067: the heart-rate term is 16/45, not 0.4,
    because 115 lies below the saturation point 120), sensor_stability 0.95
    and final_confidence 0.915; the second one alerts, with a comment that
    starts with CRITICAL. *)
Theorem scenario_two_windows (df : list AnomalyRow) (i : nat) (w1 w2 : AnomalyRow) :
  let rf := calculate_risk_and_alerts df default_risk_threshold
              default_confidence_threshold in
  df !! i = Some w1 -> df !! S i = Some w2 ->
  matches_scenario w1 -> matches_scenario w2 ->
  (forall k, k = i \/ k = S i ->
     exists score stability conf,
       risk_score rf !! k = Some score /\ is_val score (68 # 75)
       /\ sensor_stability rf !! k = Some stability /\ is_val stability 0.95
       /\ final_confidence rf !! k = Some conf /\ is_val conf 0.915)
  /\ alert_triggered rf !! S i = Some true
  /\ exists comment, alert_comment rf !! S i = Some comment
       /\ String.prefix "CRITICAL" comment = true.
Proof.
  intros rf H1 H2 M1 M2. subst rf.
  assert (Hbreach : forall r, matches_scenario r ->
            num_gt (window_risk (feats r)) default_risk_threshold = true).
  { intros r M. pose proof (scenario_window_risk r M) as H.
    destruct (window_risk (feats r)) as [q|]; [|contradiction].
    simpl in *. apply Qlt_bool_iff. unfold default_risk_threshold. lra. }
  assert (Hconf : num_gt (window_confidence w2) default_confidence_threshold = true).
  { pose proof (scenario_window_confidence w2 M2) as H.
    destruct (window_confidence w2) as [q|]; [|contradiction].
    simpl in *. apply Qlt_bool_iff. unfold default_confidence_threshold. lra. }
  assert (Halert : row_alert_triggered
            (risk_row df default_risk_threshold default_confidence_threshold (S i) w2)
          = true).
  { cbn. rewrite H1, (Hbreach w1 M1), (Hbreach w2 M2), Hconf. reflexivity. }
  split; [|split].
  - intros k [-> | ->].
    + exists (window_risk (feats w1)), (window_stability (feats w1)), (window_confidence w1).
      rewrite (risk_score_lookup _ _ _ _ _ H1), (sensor_stability_lookup _ _ _ _ _ H1),
        (final_confidence_lookup _ _ _ _ _ H1).
      split; [reflexivity|]. split; [now apply scenario_window_risk|].
      split; [reflexivity|]. split; [now apply scenario_window_stability|].
      split; [reflexivity|]. now apply scenario_window_confidence.
    + exists (window_risk (feats w2)), (window_stability (feats w2)), (window_confidence w2).
      rewrite (risk_score_lookup _ _ _ _ _ H2), (sensor_stability_lookup _ _ _ _ _ H2),
        (final_confidence_lookup _ _ _ _ _ H2).
      split; [reflexivity|]. split; [now apply scenario_window_risk|].
      split; [reflexivity|]. split; [now apply scenario_window_stability|].
      split; [reflexivity|]. now apply scenario_window_confidence.
  - rewrite (alert_triggered_lookup _ _ _ _ _ H2), Halert. reflexivity.
  - rewrite (alert_comment_lookup _ _ _ _ _ H2).
    eexists. split; [reflexivity|].
    unfold get_alert_comment. rewrite Halert. reflexivity.
Qed.

Lemma scenario_two_windows_witness :
  let rf := calculate_risk_and_alerts [scenario_window; scenario_window]
              default_risk_threshold default_confidence_threshold in
  (forall k, k = 0%nat \/ k = 1%nat ->
     exists score stability conf,
       risk_score rf !! k = Some score /\ is_val score (68 # 75)
       /\ sensor_stability rf !! k = Some stability /\ is_val stability 0.95
       /\ final_confidence rf !! k = Some conf /\ is_val conf 0.915)
  /\ alert_triggered rf !! 1%nat = Some true
  /\ exists comment, alert_comment rf !! 1%nat = Some comment
       /\ String.prefix "CRITICAL" comment = true.
Proof.
  exact (scenario_two_windows [scenario_window; scenario_window] 0
           scenario_window scenario_window eq_refl eq_refl
           scenario_window_matches scenario_window_matches).
Defined.

(** C2 (as stated) fails: the scenario window is scored 68/75, not 0.96. *)
Lemma scenario_risk_score_is_not_0_96 :
  matches_scenario scenario_window
  /\ exists score,
       risk_score (calculate_risk_and_alerts [scenario_window; scenario_window]
                     default_risk_threshold default_confidence_threshold) !! 1%nat
       = Some (Some score)
       /\ ~ score == 0.96.
Proof.
  split; [exact scenario_window_matches|].
  eexists. split; [vm_compute; reflexivity|].
  vm_compute. discriminate.
Qed.

(** ** The request handler *)

(** A successful response carries the alert flag it was built with. *)
Lemma inr_response_anomaly (a : bool) (rs fc : Q) (d : string)
    (e : HTTPException + PredictionResponse) (response : PredictionResponse) :
  e = inr response ->
  e = inr {| anomaly := a; response_risk_score := rs;
             response_confidence := fc; details := d |} ->
  anomaly response = a.
Proof. intros -> [= ->]. reflexivity. Qed.

(** C1.  A request that passes the size check and is answered without an
    internal error is answered with [anomaly = false]: the risk record
    comes from a one-row frame, whose only window has no predecessor. *)
Theorem predict_risk_never_reports_anomaly
    (data : list Vitals.VitalsData) (response : PredictionResponse) :
  predict_risk data = inr response -> anomaly response = false.
Proof.
  unfold predict_risk.
  destruct (length data <? 10)%nat; [discriminate|].
  destruct (last (Vitals.timestamp <$> data)) as [ts|]; [|discriminate].
  set (feats := extract_features _).
  set (row := {| timestamp := ts; feats := feats |}).
  rewrite (alert_triggered_lookup [row] _ _ 0 row eq_refl).
  rewrite (risk_score_lookup [row] _ _ 0 row eq_refl).
  rewrite (final_confidence_lookup [row] _ _ 0 row eq_refl).
  rewrite (alert_comment_lookup [row] _ _ 0 row eq_refl).
  intros H. rewrite (inr_response_anomaly _ _ _ _ _ _ H eq_refl).
  cbn. rewrite andb_false_r. reflexivity.
Qed.

Lemma predict_risk_never_reports_anomaly_witness :
  exists response,
    predict_risk sample_request = inr response /\ anomaly response = false.
Proof.
  eexists. split; [vm_compute; reflexivity|].
  apply (predict_risk_never_reports_anomaly sample_request).
  vm_compute. reflexivity.
Defined.

(** ** Least-squares slope *)

Lemma nQ_S n : nQ (S n) == nQ n + 1.
Proof. unfold nQ. rewrite Nat2Z.inj_succ, <- Z.add_1_r, inject_Z_plus. reflexivity. Qed.

Lemma nQ_pos n : (0 < n)%nat -> 0 < nQ n.
Proof.
  intros H. unfold nQ. change 0 with (inject_Z 0). rewrite <- Zlt_Qlt. lia.
Qed.

Lemma nQ_nonneg n : 0 <= nQ n.
Proof. unfold nQ. change 0 with (inject_Z 0). rewrite <- Zle_Qle. lia. Qed.

Lemma Qsum_deviations (x y : list Q) (a b : Q) :
  length x = length y ->
  Qsum (zip_with (fun u v => (u - a) * (v - b)) x y)
  == Qsum (zip_with Qmult x y) - a * Qsum y - b * Qsum x + nQ (length x) * a * b.
Proof.
  revert y. induction x as [|u x IH]; intros [|v y] Hlen; try discriminate.
  - simpl. unfold nQ. simpl. ring.
  - injection Hlen as Hlen. cbn [zip_with Qsum foldr length]. 
    fold (Qsum (zip_with (fun u v => (u - a) * (v - b)) x y)).
    fold (Qsum (zip_with Qmult x y)). fold (Qsum x). fold (Qsum y).
    rewrite (IH y Hlen), nQ_S. ring.
Qed.

Lemma cross_sum_cons (x0 y0 : Q) (x y : list Q) :
  length x = length y ->
  cross_sum (x0 :: x) (y0 :: y)
  == cross_sum x y + Qsum (zip_with (fun u v => (u - x0) * (v - y0)) x y).
Proof.
  intros Hlen. rewrite (Qsum_deviations x y x0 y0 Hlen). unfold cross_sum.
  cbn [zip_with Qsum foldr length].
  fold (Qsum (zip_with Qmult x y)). fold (Qsum x). fold (Qsum y).
  rewrite nQ_S. ring.
Qed.

Lemma cov_cross_sum (x y : list Q) :
  length x = length y -> (0 < length x)%nat ->
  cov x y == cross_sum x y / (nQ (length x) * nQ (length x)).
Proof.
  intros Hlen Hpos. unfold cov, Qmean.
  rewrite length_zip_with, <- Hlen, Nat.min_id.
  rewrite (Qsum_deviations x y _ _ Hlen). unfold cross_sum.
  fold (nQ (length x)).
  pose proof (nQ_pos _ Hpos). field. lra.
Qed.

Lemma increasing_tail a l : increasing (a :: l) -> increasing l.
Proof. destruct l as [|b l]; [intros; exact I | intros [_ H]; exact H]. Qed.

Lemma increasing_head_lt a l : increasing (a :: l) -> Forall (fun b => a < b) l.
Proof.
  revert a. induction l as [|b l IH]; intros a H; [constructor|].
  destruct H as [Hab Hl]. constructor; [exact Hab|].
  eapply Forall_impl; [exact (IH b Hl)|]. intros c Hc. simpl in Hc. lra.
Qed.

Lemma Qsum_products_nonneg (x0 y0 : Q) (x y : list Q) :
  Forall (fun u => x0 < u) x -> Forall (fun v => y0 < v) y ->
  0 <= Qsum (zip_with (fun u v => (u - x0) * (v - y0)) x y).
Proof.
  intros Hx. revert y. induction Hx as [|u x Hu Hx IH]; intros y Hy.
  - simpl. lra.
  - destruct Hy as [|v y Hv Hy]; [simpl; lra|].
    cbn [zip_with Qsum foldr].
    fold (Qsum (zip_with (fun u v => (u - x0) * (v - y0)) x y)).
    specialize (IH y Hy).
    assert (0 < (u - x0) * (v - y0)) by (apply Qmult_lt_0_compat; lra).
    lra.
Qed.

Lemma Qsum_products_pos (x0 y0 : Q) (x y : list Q) :
  Forall (fun u => x0 < u) x -> Forall (fun v => y0 < v) y ->
  length x = length y -> (0 < length x)%nat ->
  0 < Qsum (zip_with (fun u v => (u - x0) * (v - y0)) x y).
Proof.
  intros Hx Hy Hlen Hpos.
  destruct Hx as [|u x Hu Hx]; [simpl in Hpos; lia|].
  destruct Hy as [|v y Hv Hy]; [discriminate|].
  cbn [zip_with Qsum foldr].
  fold (Qsum (zip_with (fun u v => (u - x0) * (v - y0)) x y)).
  pose proof (Qsum_products_nonneg x0 y0 x y Hx Hy).
  assert (0 < (u - x0) * (v - y0)) by (apply Qmult_lt_0_compat; lra).
  lra.
Qed.

Lemma cross_sum_nonneg (x y : list Q) :
  increasing x -> increasing y -> length x = length y -> 0 <= cross_sum x y.
Proof.
  revert y. induction x as [|x0 x IH]; intros [|y0 y] Hx Hy Hlen; try discriminate.
  injection Hlen as Hlen. rewrite (cross_sum_cons x0 y0 x y Hlen).
  pose proof (IH y (increasing_tail _ _ Hx) (increasing_tail _ _ Hy) Hlen).
  pose proof (Qsum_products_nonneg x0 y0 x y
                (increasing_head_lt _ _ Hx) (increasing_head_lt _ _ Hy)).
  lra.
Qed.

Lemma cross_sum_pos (x y : list Q) :
  increasing x -> increasing y -> length x = length y -> (2 <= length x)%nat ->
  0 < cross_sum x y.
Proof.
  intros Hx Hy Hlen Hn.
  destruct x as [|x0 x]; [simpl in Hn; lia|].
  destruct y as [|y0 y]; [discriminate|].
  injection Hlen as Hlen. simpl in Hn.
  rewrite (cross_sum_cons x0 y0 x y Hlen).
  pose proof (cross_sum_nonneg x y (increasing_tail _ _ Hx) (increasing_tail _ _ Hy) Hlen).
  pose proof (Qsum_products_pos x0 y0 x y
                (increasing_head_lt _ _ Hx) (increasing_head_lt _ _ Hy) Hlen ltac:(lia)).
  lra.
Qed.

Lemma increasing_arange_from (k n : nat) :
  increasing ((fun j => inject_Z (Z.of_nat j)) <$> seq k n).
Proof.
  revert k. induction n as [|n IH]; intros k; [exact I|].
  destruct n as [|n]; [exact I|].
  specialize (IH (S k)). cbn [seq fmap list_fmap] in *.
  split; [|exact IH].
  rewrite <- Zlt_Qlt. lia.
Qed.

Lemma increasing_arange n : increasing (np_arange n).
Proof. apply increasing_arange_from. Qed.

Lemma length_arange n : length (np_arange n) = n.
Proof. unfold np_arange. now rewrite length_fmap, length_seq. Qed.

Lemma linregress_slope_pos (y : list Q) :
  (2 <= length y)%nat -> increasing y ->
  0 < linregress_slope (np_arange (length y)) y.
Proof.
  intros Hn Hy. unfold linregress_slope.
  set (x := np_arange (length y)).
  assert (Hlen : length x = length y) by apply length_arange.
  assert (Hx : increasing x) by apply increasing_arange.
  rewrite (cov_cross_sum x x eq_refl ltac:(lia)).
  rewrite (cov_cross_sum x y Hlen ltac:(lia)).
  pose proof (cross_sum_pos x x Hx Hx eq_refl ltac:(lia)) as Hxx.
  pose proof (cross_sum_pos x y Hx Hy Hlen ltac:(lia)) as Hxy.
  pose proof (nQ_pos (length x) ltac:(lia)) as Hq.
  set (n := nQ (length x)) in *.
  set (a := cross_sum x y) in *. set (b := cross_sum x x) in *.
  assert (E : a / (n * n) / (b / (n * n)) == a / b) by (field; split; lra).
  rewrite E. apply Qlt_shift_div_l; lra.
Qed.

Lemma Qsum_constant (c : Q) (y : list Q) :
  Forall (fun v => v == c) y -> Qsum y == nQ (length y) * c.
Proof.
  induction 1 as [|v y Hv Hy IH].
  - unfold nQ. simpl. ring.
  - cbn [Qsum foldr length]. fold (Qsum y). rewrite IH, Hv, nQ_S. ring.
Qed.

Lemma Qmean_constant (c : Q) (y : list Q) :
  Forall (fun v => v == c) y -> (0 < length y)%nat -> Qmean y == c.
Proof.
  intros Hy Hpos. unfold Qmean. fold (nQ (length y)).
  rewrite (Qsum_constant c y Hy).
  pose proof (nQ_pos _ Hpos). field. lra.
Qed.

Lemma Qsum_deviations_constant (a c : Q) (x y : list Q) :
  Forall (fun v => v == c) y ->
  Qsum (zip_with (fun u v => (u - a) * (v - c)) x y) == 0.
Proof.
  intros Hy. revert x. induction Hy as [|v y Hv Hy IH]; intros [|u x]; try reflexivity.
  cbn [zip_with Qsum foldr].
  fold (Qsum (zip_with (fun u v => (u - a) * (v - c)) x y)).
  rewrite IH, Hv. ring.
Qed.

Lemma cov_constant (c : Q) (x y : list Q) :
  Forall (fun v => v == c) y -> (0 < length y)%nat -> cov x y == 0.
Proof.
  intros Hy Hpos. unfold cov.
  assert (Hy' : Forall (fun v => v == Qmean y) y).
  { eapply Forall_impl; [exact Hy|]. intros v Hv. simpl in Hv.
    rewrite Hv. symmetry. now apply Qmean_constant. }
  unfold Qmean at 1.
  rewrite (Qsum_deviations_constant (Qmean x) (Qmean y) x y Hy').
  unfold Qdiv. ring.
Qed.

Lemma linregress_slope_constant (c : Q) (x y : list Q) :
  Forall (fun v => v == c) y -> (0 < length y)%nat -> linregress_slope x y == 0.
Proof.
  intros Hy Hpos. unfold linregress_slope.
  rewrite (cov_constant c x y Hy Hpos). unfold Qdiv. ring.
Qed.

(** ** extract_features *)

Lemma observations_known (vals : list Q) : observations (Some <$> vals) = vals.
Proof.
  unfold observations. induction vals as [|v vals IH]; [reflexivity|].
  rewrite fmap_cons. cbn [omap list_omap]. simpl. f_equal. exact IH.
Qed.

Lemma existsb_isnan_known (vals : list Q) : existsb isnan (Some <$> vals) = false.
Proof. induction vals as [|v vals IH]; [reflexivity|]. rewrite fmap_cons. exact IH. Qed.

Lemma heart_rate_slope_eq (window : Clean.DataFrame) :
  heart_rate_slope (extract_features window)
  = (column_features (Clean.heart_rate window)).2.
Proof.
  unfold extract_features.
  destruct (column_features (Clean.heart_rate window)) as [[? ?] ?].
  destruct (column_features (Clean.spo2 window)) as [[? ?] ?].
  destruct (column_features (Clean.bp_systolic window)) as [[? ?] ?].
  reflexivity.
Qed.

Lemma column_slope_known (vals : list Q) :
  (2 <= length vals)%nat ->
  (column_features (Some <$> vals)).2
  = Some (linregress_slope (np_arange (length vals)) vals).
Proof.
  intros Hn. unfold column_features. cbn [snd].
  rewrite existsb_isnan_known, observations_known, length_fmap.
  destruct (Nat.ltb_spec 1 (length vals)) as [_|H]; [reflexivity | lia].
Qed.

(** C10.  On a window of at least two samples without unknowns, a strictly
    increasing heart-rate series gets a positive heart_rate_slope and a
    constant series gets the slope 0. *)
Theorem heart_rate_slope_sign (window : Clean.DataFrame) (vals : list Q) :
  Clean.heart_rate window = Some <$> vals -> (2 <= length vals)%nat ->
  (increasing vals ->
     exists s, heart_rate_slope (extract_features window) = Some s /\ 0 < s)
  /\ ((exists c, Forall (fun v => v == c) vals) ->
        exists s, heart_rate_slope (extract_features window) = Some s /\ s == 0).
Proof.
  intros Hhr Hn.
  rewrite heart_rate_slope_eq, Hhr, (column_slope_known vals Hn).
  split.
  - intros Hinc. eexists. split; [reflexivity|].
    now apply linregress_slope_pos.
  - intros [c Hc]. eexists. split; [reflexivity|].
    apply (linregress_slope_constant c); [exact Hc | lia].
Qed.

Lemma heart_rate_slope_sign_witness :
  (exists s, heart_rate_slope
               (extract_features (window_of [Some 80; Some 82; Some 85] [Some 1; Some 1; Some 1]))
             = Some s /\ 0 < s)
  /\ (exists s, heart_rate_slope
                  (extract_features (window_of [Some 80; Some 80; Some 80] [Some 1; Some 1; Some 1]))
                = Some s /\ s == 0).
Proof.
  split.
  - apply (proj1 (heart_rate_slope_sign
                    (window_of [Some 80; Some 82; Some 85] [Some 1; Some 1; Some 1])
                    [80; 82; 85] eq_refl ltac:(simpl; lia))).
    simpl. repeat split; reflexivity.
  - apply (proj2 (heart_rate_slope_sign
                    (window_of [Some 80; Some 80; Some 80] [Some 1; Some 1; Some 1])
                    [80; 80; 80] eq_refl ltac:(simpl; lia))).
    exists 80. repeat constructor.
Defined.

(** ** Unknown values in a feature window *)

Lemma forallb_notna_unknown (v : Series) : None ∈ v -> forallb notna v = false.
Proof.
  induction v as [|x v IH]; intros Hin.
  - apply list_elem_of_In in Hin. destruct Hin.
  - apply list_elem_of_In in Hin. destruct Hin as [-> | Hin]; [reflexivity|].
    simpl. rewrite IH by (now apply list_elem_of_In). apply andb_false_r.
Qed.

Lemma column_features_unknown (v : Series) :
  None ∈ v ->
  (column_features v).1.1 = None /\ (column_features v).1.2 = None
  /\ (column_features v).2 = Some 0.0.
Proof.
  intros Hin. unfold column_features, np_mean, np_var. cbn [fst snd].
  rewrite (forallb_notna_unknown v Hin). cbn [andb].
  assert (E : existsb isnan v = true).
  { apply existsb_exists. exists None. split; [|reflexivity].
    now apply list_elem_of_In. }
  rewrite E, andb_false_r. auto.
Qed.

Lemma extract_features_columns (window : Clean.DataFrame) :
  let f := extract_features window in
  (heart_rate_mean f, heart_rate_var f, heart_rate_slope f)
    = column_features (Clean.heart_rate window)
  /\ (spo2_mean f, spo2_var f, spo2_slope f) = column_features (Clean.spo2 window)
  /\ (bp_systolic_mean f, bp_systolic_var f, bp_systolic_slope f)
       = column_features (Clean.bp_systolic window)
  /\ confidence_mean f = pd_mean (Clean.artifact_confidence window).
Proof.
  unfold extract_features.
  destruct (column_features (Clean.heart_rate window)) as [[? ?] ?].
  destruct (column_features (Clean.spo2 window)) as [[? ?] ?].
  destruct (column_features (Clean.bp_systolic window)) as [[? ?] ?].
  cbn. auto.
Qed.

(** C5 (as amended).  An unknown value in the heart_rate, spo2 or
    bp_systolic column of a window makes the mean and the variance of that
    column unknown (and its slope 0); only confidence_mean leaves unknowns
    out: it is the arithmetic mean of the known artifact_confidence values
    whenever there is one. *)
Theorem extract_features_with_unknowns (window : Clean.DataFrame) :
  let f := extract_features window in
  (None ∈ Clean.heart_rate window ->
     heart_rate_mean f = None /\ heart_rate_var f = None
     /\ heart_rate_slope f = Some 0.0)
  /\ (None ∈ Clean.spo2 window ->
        spo2_mean f = None /\ spo2_var f = None /\ spo2_slope f = Some 0.0)
  /\ (None ∈ Clean.bp_systolic window ->
        bp_systolic_mean f = None /\ bp_systolic_var f = None
        /\ bp_systolic_slope f = Some 0.0)
  /\ (forall known, observations (Clean.artifact_confidence window) = known ->
        known <> [] ->
        confidence_mean f = np_mean (Some <$> known)).
Proof.
  intros f. destruct (extract_features_columns window) as (Hhr & Hsp & Hbp & Hc).
  fold f in Hhr, Hsp, Hbp, Hc.
  split; [|split; [|split]].
  - intros Hin. destruct (column_features_unknown _ Hin) as (H1 & H2 & H3).
    rewrite <- Hhr in H1, H2, H3. auto.
  - intros Hin. destruct (column_features_unknown _ Hin) as (H1 & H2 & H3).
    rewrite <- Hsp in H1, H2, H3. auto.
  - intros Hin. destruct (column_features_unknown _ Hin) as (H1 & H2 & H3).
    rewrite <- Hbp in H1, H2, H3. auto.
  - intros known Hk Hne. rewrite Hc. unfold pd_mean, np_mean. rewrite Hk.
    rewrite observations_known, length_fmap.
    assert (E : forallb notna (Some <$> known) = true).
    { clear. induction known as [|v known IH]; [reflexivity|].
      rewrite fmap_cons. exact IH. }
    rewrite E. destruct known; [contradiction | reflexivity].
Qed.

Lemma extract_features_with_unknowns_witness :
  let f := extract_features (window_of [Some 80; None; Some 90] [Some 1; None; Some 0.5]) in
  (heart_rate_mean f = None /\ heart_rate_var f = None /\ heart_rate_slope f = Some 0.0)
  /\ confidence_mean f = np_mean [Some 1; Some 0.5].
Proof.
  intros f.
  pose proof (extract_features_with_unknowns
                (window_of [Some 80; None; Some 90] [Some 1; None; Some 0.5]))
    as (Hhr & _ & _ & Hc).
  split.
  - apply Hhr. apply list_elem_of_In. simpl. auto.
  - apply (Hc [1; 0.5]); [reflexivity | discriminate].
Defined.

(** C5 (as stated) fails: with one unknown heart rate in the window the
    mean is unknown, not the mean 85 of the two known values. *)
Lemma heart_rate_mean_propagates_unknown :
  observations (Clean.heart_rate gap_window) = [80; 90]
  /\ Qmean [80; 90] == 85
  /\ ~ is_val (heart_rate_mean (extract_features gap_window)) (Qmean [80; 90])
  /\ heart_rate_var (extract_features gap_window) = None.
Proof.
  split; [reflexivity|]. split; [reflexivity|].
  split; [|reflexivity]. vm_compute. auto.
Qed.

(** ** Sliding windows *)

Lemma py_range_spec (stop : Z) (step start : nat) :
  (0 < step)%nat ->
  start ∈ py_range stop step
  <-> (exists k, start = (k * step)%nat) /\ (Z.of_nat start < stop)%Z.
Proof.
  intros Hstep. unfold py_range. rewrite list_elem_of_fmap.
  set (s := Z.of_nat step). assert (Hs : (0 < s)%Z) by (subst s; lia).
  assert (Hdiv : forall k : Z, (k < (stop + s - 1) / s <-> k * s < stop)%Z).
  { intros k. split; intros H.
    - assert ((k + 1) * s <= stop + s - 1)%Z; [|lia].
      transitivity (s * ((stop + s - 1) / s))%Z; [nia|].
      apply Z.mul_div_le. lia.
    - assert (k + 1 <= (stop + s - 1) / s)%Z; [|lia].
      apply Z.div_le_lower_bound; [lia|]. nia. }
  split.
  - intros (k & -> & Hk). apply elem_of_seq in Hk. split; [eauto|].
    assert (Z.of_nat k * s < stop)%Z; [apply Hdiv; lia | subst s; lia].
  - intros ((k & ->) & Hlt). exists k. split; [reflexivity|].
    apply elem_of_seq. split; [lia|]. simpl.
    assert (Z.of_nat k < (stop + s - 1) / s)%Z; [|lia].
    apply Hdiv. subst s. lia.
Qed.

(** The loop visits the multiples of the step whose window ends strictly
    before the end of the frame. *)
Lemma window_starts_spec (length_df window_size step_size start : nat) :
  (0 < step_size)%nat ->
  start ∈ window_starts length_df window_size step_size
  <-> (exists k, start = (k * step_size)%nat) /\ (start + window_size < length_df)%nat.
Proof.
  intros Hstep. unfold window_starts. rewrite (py_range_spec _ _ _ Hstep).
  split; intros [Hk Hlt]; (split; [exact Hk | lia]).
Qed.

(** The window that ends on the last sample is never visited. *)
Lemma final_window_not_visited (length_df window_size step_size : nat) :
  (0 < step_size)%nat -> (window_size <= length_df)%nat ->
  (length_df - window_size)%nat ∉ window_starts length_df window_size step_size.
Proof.
  intros Hstep Hle Hin. apply window_starts_spec in Hin; [|exact Hstep].
  destruct Hin as [_ Hlt]. lia.
Qed.

(** C6 (the code departs from the claim).  A cleaned sequence of 30 samples
    holds one full window of size 30, at start offset 0, and 0 + 30 <= 30;
    [detect_anomalies] returns no window for it. *)
Theorem detect_anomalies_skips_final_window :
  let df := detect_and_clean_artifacts (steady_samples 30) default_motion_threshold in
  Clean.len df = 30%nat
  /\ (0 + 30 <= Clean.len df)%nat
  /\ detect_anomalies df 30 10 = Some [].
Proof.
  split; [reflexivity|]. split; [vm_compute; lia|]. reflexivity.
Qed.

(** ** Rolling windows *)

Lemma length_rolling (w : nat) (agg : list Q -> Q) (s : Series) :
  length (rolling w agg s) = length s.
Proof. unfold rolling. now rewrite length_fmap, length_seq. Qed.

Lemma rolling_lookup (w : nat) (agg : list Q -> Q) (s : Series) (i : nat) :
  (i < length s)%nat ->
  rolling w agg s !! i
  = Some (let obs := observations (rolling_window w s i) in
          if (w <=? length obs)%nat then Some (agg obs) else None).
Proof.
  intros Hi. unfold rolling. rewrite list_lookup_fmap.
  rewrite (lookup_seq_lt 0 (length s) i Hi). reflexivity.
Qed.


Lemma elem_of_observations (w : Series) (a : Q) : a ∈ observations w <-> Some a ∈ w.
Proof.
  unfold observations. rewrite list_elem_of_omap. split.
  - intros (x & Hx & Hxa). simpl in Hxa. now subst x.
  - intros H. exists (Some a). auto.
Qed.

(** The window of a position is the part of the series between the bounds
    of [get_window_bounds]. *)
Lemma rolling_window_lookup {A} (w : nat) (s : list A) (i k : nat) (x : A) :
  rolling_window w s i !! k = Some x ->
  let j := (i + 1 + (w - 1) / 2 - w + k)%nat in
  s !! j = Some x /\ (j < i + 1 + (w - 1) / 2)%nat.
Proof.
  unfold rolling_window, get_window_bounds.
  rewrite lookup_take, lookup_drop.
  case_decide as Hk; [|discriminate].
  intros Hx. pose proof (lookup_lt_Some _ _ _ Hx) as Hlt.
  set (off := ((w - 1) / 2)%nat) in *. clearbody off.
  assert (E : (i + 1 + off - w) `min` length s = (i + 1 + off - w)%nat) by lia.
  rewrite E in *. split; [exact Hx | lia].
Qed.



(** A complete window is the [w] values that start [w - 1 - (w - 1) / 2]
    positions before its centre. *)
Lemma rolling_window_complete {A} (w : nat) (s : list A) (i : nat) :
  (w <= i + 1 + (w - 1) / 2)%nat -> (i + 1 + (w - 1) / 2 <= length s)%nat ->
  rolling_window w s i = take w (drop (i + 1 + (w - 1) / 2 - w) s).
Proof.
  intros H1 H2. unfold rolling_window, get_window_bounds.
  set (off := ((w - 1) / 2)%nat) in *. clearbody off.
  f_equal; [lia|]. f_equal. lia.
Qed.

(** ** Scores stay in the unit interval *)


Lemma artifact_confidence_eq (df : list Vitals.VitalsData) (mt : Q) :
  Clean.artifact_confidence (detect_and_clean_artifacts df mt)
  = s_rsubc 1.0 (s_clip 0 1 (rolling 60 Qmean (Vitals.vibration <$> df))).
Proof. reflexivity. Qed.











(** ** Motion gating *)

Lemma motion_risk_eq (df : list Vitals.VitalsData) (mt : Q) :
  Clean.motion_risk (detect_and_clean_artifacts df mt)
  = s_fillna 0 (rolling 5 Qmax_list
                  (astype_float <$> s_gt (Vitals.vibration <$> df) mt)).
Proof. reflexivity. Qed.

Lemma hr_artifact_eq (df : list Vitals.VitalsData) (mt : Q) :
  Clean.hr_artifact (detect_and_clean_artifacts df mt)
  = loc_set (s_and (s_gt (Clean.motion_risk (detect_and_clean_artifacts df mt)) 0.5)
               (s_gt (s_abs (diff (Vitals.heart_rate <$> df))) 5.0))
      true ((fun _ => false) <$> df).
Proof. reflexivity. Qed.

Lemma spo2_artifact_eq (df : list Vitals.VitalsData) (mt : Q) :
  Clean.spo2_artifact (detect_and_clean_artifacts df mt)
  = loc_set (s_and (s_gt (Clean.motion_risk (detect_and_clean_artifacts df mt)) 0.8)
               (s_lt (Vitals.spo2 <$> df) 85))
      true
      (loc_set (s_and (s_gt (Clean.motion_risk (detect_and_clean_artifacts df mt)) 0.5)
                  (s_gt (s_abs (diff (Vitals.spo2 <$> df))) 2.0))
         true ((fun _ => false) <$> df)).
Proof. reflexivity. Qed.

Lemma length_diff (s : Series) : length (diff s) = length s.
Proof. unfold diff. rewrite length_zip_with, length_fillna_shift1. lia. Qed.

Lemma length_motion_risk (df : list Vitals.VitalsData) (mt : Q) :
  length (Clean.motion_risk (detect_and_clean_artifacts df mt)) = length df.
Proof.
  rewrite motion_risk_eq. unfold s_fillna, s_gt.
  now rewrite length_fmap, length_rolling, !length_fmap.
Qed.

Lemma Qmax_list_zeros (l : list Q) : Forall (fun a => a = 0) l -> Qmax_list l = 0.
Proof.
  intros H. destruct H as [|a l -> Hl]; [reflexivity|].
  simpl. induction Hl as [|b l -> Hl IH]; [reflexivity|].
  simpl. rewrite IH. reflexivity.
Qed.

(** Where no sample of the 5-sample window of position [j] exceeds the
    motion threshold, the motion risk of [j] is 0. *)
Lemma motion_risk_quiet (df : list Vitals.VitalsData) (mt : Q) (j : nat) :
  (j < length df)%nat ->
  (forall k v, (j - 2 <= k <= j + 2)%nat ->
     (Vitals.vibration <$> df) !! k = Some v -> num_gt v mt = false) ->
  Clean.motion_risk (detect_and_clean_artifacts df mt) !! j = Some (Some 0).
Proof.
  intros Hj Hquiet. rewrite motion_risk_eq. unfold s_fillna.
  rewrite list_lookup_fmap.
  rewrite rolling_lookup by (unfold s_gt; now rewrite !length_fmap).
  cbn zeta.
  set (w := rolling_window 5 _ j).
  destruct (5 <=? length (observations w))%nat; [|reflexivity].
  change (Some (Some (Qmax_list (observations w))) = Some (Some 0)).
  do 2 f_equal. apply Qmax_list_zeros, Forall_forall.
  intros a Ha. apply elem_of_observations, list_elem_of_lookup in Ha as [k Hk].
  unfold w in Hk. apply rolling_window_lookup in Hk. cbn zeta in Hk.
  change ((5 - 1) / 2)%nat with 2%nat in Hk. destruct Hk as [Hk Hlt].
  apply list_lookup_fmap_Some in Hk as (b & Hab & Hk).
  apply list_lookup_fmap_Some in Hk as (v & -> & Hv).
  rewrite (Hquiet (j + 1 + 2 - 5 + k)%nat v) in Hab; [|lia|exact Hv].
  injection Hab as ->. reflexivity.
Qed.

Lemma lookup_zip_with_Some' {A B C} (f : A -> B -> C) (l : list A) (k : list B) i a b :
  l !! i = Some a -> k !! i = Some b -> zip_with f l k !! i = Some (f a b).
Proof. intros Ha Hb. rewrite lookup_zip_with, Ha. simpl. now rewrite Hb. Qed.

(** With motion risk 0 no artifact flag is set, whatever the deltas. *)
Lemma flags_unset_without_motion (df : list Vitals.VitalsData) (mt : Q) (j : nat) :
  Clean.motion_risk (detect_and_clean_artifacts df mt) !! j = Some (Some 0) ->
  Clean.hr_artifact (detect_and_clean_artifacts df mt) !! j = Some false
  /\ Clean.spo2_artifact (detect_and_clean_artifacts df mt) !! j = Some false.
Proof.
  intros Hm.
  assert (Hj : (j < length df)%nat).
  { apply lookup_lt_Some in Hm. now rewrite length_motion_risk in Hm. }
  assert (Hfalse : ((fun _ : Vitals.VitalsData => false) <$> df) !! j = Some false).
  { rewrite list_lookup_fmap.
    destruct (lookup_lt_is_Some_2 df j Hj) as [d ->]. reflexivity. }
  assert (Hcol : forall (c : Series) (t : Q) (cmp : Series -> Q -> list bool),
            (cmp = s_gt \/ cmp = s_lt) -> length c = length df ->
            exists b, cmp c t !! j = Some b).
  { intros c t cmp Hcmp Hlen. apply lookup_lt_is_Some_2.
    destruct Hcmp as [-> | ->]; unfold s_gt, s_lt; rewrite length_fmap; lia. }
  assert (Hgate : forall t, 0 <= t ->
            s_gt (Clean.motion_risk (detect_and_clean_artifacts df mt)) t !! j
            = Some false).
  { intros t Ht. unfold s_gt. rewrite list_lookup_fmap, Hm. simpl.
    f_equal. apply Qlt_bool_false. exact Ht. }
  assert (Hand : forall (c : list bool) b,
            c !! j = Some b ->
            forall t, 0 <= t ->
            s_and (s_gt (Clean.motion_risk (detect_and_clean_artifacts df mt)) t) c !! j
            = Some false).
  { intros c b Hc t Ht. unfold s_and.
    now rewrite (lookup_zip_with_Some' andb _ _ j false b (Hgate t Ht) Hc). }
  split.
  - rewrite hr_artifact_eq.
    destruct (Hcol (s_abs (diff (Vitals.heart_rate <$> df))) 5.0 s_gt) as [b Hb];
      [auto | unfold s_abs; now rewrite length_fmap, length_diff, length_fmap |].
    unfold loc_set.
    now rewrite (lookup_zip_with_Some' _ _ _ j false false
                   (Hand _ b Hb 0.5 ltac:(lra)) Hfalse).
  - rewrite spo2_artifact_eq.
    destruct (Hcol (s_abs (diff (Vitals.spo2 <$> df))) 2.0 s_gt) as [b Hb];
      [auto | unfold s_abs; now rewrite length_fmap, length_diff, length_fmap |].
    destruct (Hcol (Vitals.spo2 <$> df) 85 s_lt) as [b' Hb'];
      [auto | now rewrite length_fmap |].
    unfold loc_set at 1.
    rewrite (lookup_zip_with_Some' _ _ _ j false false
               (Hand _ b' Hb' 0.8 ltac:(lra))); [reflexivity|].
    unfold loc_set.
    now rewrite (lookup_zip_with_Some' _ _ _ j false false
                   (Hand _ b Hb 0.5 ltac:(lra)) Hfalse).
Qed.

Lemma observations_all_zero (w : Series) :
  Forall (fun x => exists v, x = Some v /\ v == 0) w ->
  length (observations w) = length w /\ Forall (fun v => v == 0) (observations w).
Proof.
  unfold observations. induction 1 as [|x w (v & -> & Hv) Hw [IH1 IH2]].
  - split; [reflexivity | constructor].
  - cbn. split; [now rewrite <- IH1 | now constructor].
Qed.

(** Vibration 0 on the whole confidence window of position [i] gives
    artifact confidence 1 there. *)
Lemma artifact_confidence_quiet (df : list Vitals.VitalsData) (mt : Q) (i : nat) :
  (30 <= i)%nat -> (i + 30 <= length df)%nat ->
  (forall k, (i - 30 <= k < i + 30)%nat ->
     exists v, (Vitals.vibration <$> df) !! k = Some (Some v) /\ v == 0) ->
  exists c, Clean.artifact_confidence (detect_and_clean_artifacts df mt) !! i
            = Some (Some c) /\ c == 1.
Proof.
  intros Hlo Hhi Hzero. rewrite artifact_confidence_eq. unfold s_rsubc, s_clip.
  rewrite !list_lookup_fmap.
  rewrite rolling_lookup by (rewrite length_fmap; lia). cbn zeta.
  rewrite rolling_window_complete;
    [| change ((60 - 1) / 2)%nat with 29%nat; lia
     | change ((60 - 1) / 2)%nat with 29%nat; rewrite length_fmap; lia].
  change ((60 - 1) / 2)%nat with 29%nat.
  set (w := take 60 (drop (i + 1 + 29 - 60) (Vitals.vibration <$> df))).
  assert (Hw : Forall (fun x => exists v, x = Some v /\ v == 0) w).
  { apply Forall_lookup. intros k x Hk. unfold w in Hk.
    rewrite lookup_take, lookup_drop in Hk. case_decide as Hlt; [|discriminate].
    destruct (Hzero (i + 1 + 29 - 60 + k)%nat ltac:(lia)) as (v & Hv & Hv0).
    rewrite Hv in Hk. injection Hk as <-. eauto. }
  assert (Hlen : length w = 60%nat).
  { unfold w. rewrite length_take, length_drop, length_fmap. lia. }
  destruct (observations_all_zero w Hw) as [Hobs Hall].
  rewrite Hobs, Hlen. cbn.
  eexists. split; [reflexivity|].
  assert (Hmean : Qmean (observations w) == 0).
  { apply Qmean_constant; [exact Hall | lia]. }
  rewrite Hmean. reflexivity.
Qed.

(** C9 (as amended).  When vibration is 0 on the whole confidence window
    of position [i] (positions [i - 30] to [i + 29]), the artifact
    confidence of position [i] is 1, and no hr or spo2 artifact flag is set
    at the positions whose 5-sample motion window lies inside that span
    ([i - 28] to [i + 27], position [i] among them), whatever the deltas. *)
Theorem quiet_confidence_window (df : list Vitals.VitalsData) (mt : Q) (i : nat) :
  let out := detect_and_clean_artifacts df mt in
  0 <= mt -> (30 <= i)%nat -> (i + 30 <= length df)%nat ->
  (forall k, (i - 30 <= k < i + 30)%nat ->
     exists v, (Vitals.vibration <$> df) !! k = Some (Some v) /\ v == 0) ->
  (exists c, Clean.artifact_confidence out !! i = Some (Some c) /\ c == 1)
  /\ forall j, (i - 28 <= j <= i + 27)%nat ->
       Clean.hr_artifact out !! j = Some false
       /\ Clean.spo2_artifact out !! j = Some false.
Proof.
  intros out Hmt Hlo Hhi Hzero. split.
  - now apply artifact_confidence_quiet.
  - intros j Hj. apply flags_unset_without_motion.
    apply motion_risk_quiet; [lia|].
    intros k v Hk Hv. destruct (Hzero k ltac:(lia)) as (v' & Hv' & Hv0).
    rewrite Hv' in Hv. injection Hv as <-. simpl.
    apply Qlt_bool_false. lra.
Qed.

Lemma quiet_confidence_window_witness :
  let out := detect_and_clean_artifacts tail_bump_samples default_motion_threshold in
  (exists c, Clean.artifact_confidence out !! 30%nat = Some (Some c) /\ c == 1)
  /\ forall j, (30 - 28 <= j <= 30 + 27)%nat ->
       Clean.hr_artifact out !! j = Some false
       /\ Clean.spo2_artifact out !! j = Some false.
Proof.
  apply (quiet_confidence_window tail_bump_samples default_motion_threshold 30).
  - vm_compute. discriminate.
  - lia.
  - vm_compute. lia.
  - intros k Hk. exists 0. split; [|reflexivity].
    do 60 (destruct k as [|k]; [reflexivity|]). lia.
Defined.

(** C9 (as stated) fails: the confidence window of position 30 covers
    positions 0 to 59, all with vibration 0, yet position 31 has artifact
    confidence 59/60, position 58 has none, and the heart-rate flag is set
    at position 58. *)
Lemma quiet_window_positions_not_all_clean :
  rolling_window 60 (Vitals.vibration <$> tail_bump_samples) 30 = repeat (Some 0) 60
  /\ (exists c,
        Clean.artifact_confidence
          (detect_and_clean_artifacts tail_bump_samples default_motion_threshold) !! 31%nat
        = Some (Some c) /\ ~ c == 1)
  /\ Clean.artifact_confidence
       (detect_and_clean_artifacts tail_bump_samples default_motion_threshold) !! 58%nat
     = Some None
  /\ Clean.hr_artifact
       (detect_and_clean_artifacts tail_bump_samples default_motion_threshold) !! 58%nat
     = Some true.
Proof.
  split; [vm_compute; reflexivity|]. split; [|split; vm_compute; reflexivity].
  eexists. split; [vm_compute; reflexivity|]. vm_compute. discriminate.
Qed.

(** ** Interpolation *)





Lemma length_interpolate_linear (limit : nat) (s : Series) :
  length (interpolate_linear limit s) = length s.
Proof.
  unfold interpolate_linear. destruct (first_valid_index s); [|reflexivity].
  destruct (forallb notna s); [reflexivity|]. apply length_imap.
Qed.

(** A known value is kept. *)
Lemma interpolate_linear_known (limit : nat) (s : Series) (x : nat) (v : Q) :
  s !! x = Some (Some v) -> interpolate_linear limit s !! x = Some (Some v).
Proof.
  intros Hx. unfold interpolate_linear. destruct (first_valid_index s); [|exact Hx].
  destruct (forallb notna s); [exact Hx|].
  rewrite list_lookup_imap, Hx. reflexivity.
Qed.


(** ** Suppression and interpolation in the cleaner *)






Section gaps.
Variables (flags : list bool) (col : Series).
Hypothesis Hlen : length flags = length col.


End gaps.




(** * Further properties of risk_logic.py *)

Lemma num_gt_true (x : option Q) (c : Q) :
  num_gt x c = true <-> exists a, x = Some a /\ c < a.
Proof.
  destruct x as [a|]; simpl.
  - rewrite Qlt_bool_iff. split; [eauto | now intros (b & [= <-] & H)].
  - split; [discriminate | now intros (b & [=] & _)].
Qed.

Lemma lookup_columns_length (df : list AnomalyRow) (rt ct : Q) :
  let rf := calculate_risk_and_alerts df rt ct in
  length (risk_score rf) = length df
  /\ length (sensor_stability rf) = length df
  /\ length (final_confidence rf) = length df
  /\ length (risk_threshold_breached rf) = length df
  /\ length (confidence_acceptable rf) = length df
  /\ length (persistent_risk rf) = length df
  /\ length (alert_triggered rf) = length df.
Proof.
  cbv zeta.
  rewrite alert_triggered_eq, persistent_risk_eq. unfold s_and.
  rewrite !length_zip_with, length_fillna_shift1.
  rewrite risk_score_rows, sensor_stability_rows, final_confidence_rows,
    risk_threshold_breached_rows, confidence_acceptable_rows, !length_fmap.
  repeat split; lia.
Qed.

Lemma length_alert_comment (df : list AnomalyRow) (rt ct : Q) :
  length (alert_comment (calculate_risk_and_alerts df rt ct)) = length df.
Proof.
  destruct (lookup_columns_length df rt ct) as (H1 & _ & H3 & H4 & H5 & H6 & H7).
  unfold calculate_risk_and_alerts in *.
  cbn [risk_score final_confidence risk_threshold_breached confidence_acceptable
       persistent_risk alert_triggered alert_comment] in *.
  unfold zap. rewrite length_fmap, !length_zip_with, length_fmap.
  rewrite H1, H3, H4, H5, H6, H7. lia.
Qed.


Theorem alert_triggered_iff (df : list AnomalyRow) (rt ct : Q) (i : nat) :
  let rf := calculate_risk_and_alerts df rt ct in
  alert_triggered rf !! i = Some true
  <-> (exists s c, risk_score rf !! i = Some (Some s) /\ rt < s
                   /\ final_confidence rf !! i = Some (Some c) /\ ct < c)
      /\ (exists j s', i = S j /\ risk_score rf !! j = Some (Some s') /\ rt < s').
Proof.
  intros rf. subst rf. split.
  - intros Hi.
    assert (Hlen : (i < length df)%nat).
    { apply lookup_lt_Some in Hi.
      now rewrite (proj2 (proj2 (proj2 (proj2 (proj2 (proj2
                     (lookup_columns_length df rt ct))))))) in Hi. }
    destruct (lookup_lt_is_Some_2 df i Hlen) as [r Hr].
    rewrite (alert_triggered_lookup df rt ct i r Hr) in Hi.
    injection Hi as Hi. cbn in Hi.
    apply andb_true_iff in Hi as [Hp Hc].
    apply andb_true_iff in Hp as [Hb Hprev].
    apply num_gt_true in Hb as (s & Hs & Hlt).
    apply num_gt_true in Hc as (c & Hc & Hltc).
    split.
    + exists s, c. rewrite (risk_score_lookup df rt ct i r Hr), Hs.
      rewrite (final_confidence_lookup df rt ct i r Hr), Hc. auto.
    + destruct i as [|j]; [discriminate|]. simpl in Hprev.
      destruct (df !! j) as [r'|] eqn:Hr'; [|discriminate].
      apply num_gt_true in Hprev as (s' & Hs' & Hlt').
      exists j, s'. rewrite (risk_score_lookup df rt ct j r' Hr'), Hs'. auto.
  - intros [(s & c & Hs & Hlt & Hc & Hltc) (j & s' & -> & Hs' & Hlt')].
    assert (Hlen : (S j < length df)%nat).
    { apply lookup_lt_Some in Hs. now rewrite risk_score_rows, length_fmap in Hs. }
    destruct (lookup_lt_is_Some_2 df (S j) Hlen) as [r Hr].
    destruct (lookup_lt_is_Some_2 df j ltac:(lia)) as [r' Hr'].
    rewrite (risk_score_lookup df rt ct _ r Hr) in Hs. injection Hs as Hs.
    rewrite (risk_score_lookup df rt ct _ r' Hr') in Hs'. injection Hs' as Hs'.
    rewrite (final_confidence_lookup df rt ct _ r Hr) in Hc. injection Hc as Hc.
    rewrite (alert_triggered_lookup df rt ct _ r Hr). cbn. rewrite Hr', Hs, Hs', Hc.
    simpl. f_equal.
    apply Qlt_bool_iff in Hlt, Hlt', Hltc. now rewrite Hlt, Hlt', Hltc.
Qed.

(** The comment of a window is decided by three flags, in this order:
    alert, breach without confidence, breach without persistence. *)
Theorem alert_comment_cases (df : list AnomalyRow) (rt ct : Q) (i : nat) (comment : string) :
  let rf := calculate_risk_and_alerts df rt ct in
  alert_comment rf !! i = Some comment ->
  exists breached acceptable persistent,
    risk_threshold_breached rf !! i = Some breached
    /\ confidence_acceptable rf !! i = Some acceptable
    /\ persistent_risk rf !! i = Some persistent
    /\ alert_triggered rf !! i = Some (persistent && acceptable)
    /\ ((persistent = true /\ acceptable = true
         /\ String.prefix "CRITICAL:" comment = true)
        \/ (breached = true /\ acceptable = false
            /\ String.prefix "SUPPRESSED:" comment = true)
        \/ (breached = true /\ acceptable = true /\ persistent = false
            /\ comment
               = "WAITING: Risk threshold breached but awaiting trend persistence."%string)
        \/ (breached = false /\ persistent = false
            /\ comment = "Normal status."%string)).
Proof.
  intros rf Hc. subst rf.
  assert (Hlen : (i < length df)%nat).
  { apply lookup_lt_Some in Hc. now rewrite length_alert_comment in Hc. }
  destruct (lookup_lt_is_Some_2 df i Hlen) as [r Hr].
  rewrite (alert_comment_lookup df rt ct i r Hr) in Hc. injection Hc as <-.
  rewrite (risk_threshold_breached_lookup df rt ct i r Hr),
    (confidence_acceptable_lookup df rt ct i r Hr),
    (persistent_risk_lookup df rt ct i r Hr),
    (alert_triggered_lookup df rt ct i r Hr).
  do 3 eexists. split; [reflexivity|]. split; [reflexivity|]. split; [reflexivity|].
  split; [reflexivity|].
  unfold get_alert_comment, risk_row.
  cbn [row_alert_triggered row_risk_threshold_breached row_confidence_acceptable
       row_persistent_risk row_risk_score row_final_confidence row_anomaly].
  destruct (num_gt (window_risk (feats r)) rt);
    destruct (prior_breach df rt i);
    destruct (num_gt (window_confidence r) ct); cbn;
    first [ left; repeat split; reflexivity
          | right; left; repeat split; reflexivity
          | right; right; left; repeat split; reflexivity
          | right; right; right; repeat split; reflexivity ].
Qed.

Lemma alert_comment_cases_witness :
  let rf := calculate_risk_and_alerts [scenario_window; saturated_window]
              default_risk_threshold default_confidence_threshold in
  exists breached acceptable persistent,
    risk_threshold_breached rf !! 1%nat = Some breached
    /\ confidence_acceptable rf !! 1%nat = Some acceptable
    /\ persistent_risk rf !! 1%nat = Some persistent
    /\ alert_triggered rf !! 1%nat = Some (persistent && acceptable)
    /\ ((persistent = true /\ acceptable = true
         /\ String.prefix "CRITICAL:"
              "SUPPRESSED: High risk (1.00) but low confidence (0.65) due to motion/artifacts."
            = true)
        \/ (breached = true /\ acceptable = false
            /\ String.prefix "SUPPRESSED:"
                 "SUPPRESSED: High risk (1.00) but low confidence (0.65) due to motion/artifacts."
               = true)
        \/ (breached = true /\ acceptable = true /\ persistent = false
            /\ "SUPPRESSED: High risk (1.00) but low confidence (0.65) due to motion/artifacts."%string
               = "WAITING: Risk threshold breached but awaiting trend persistence."%string)
        \/ (breached = false /\ persistent = false
            /\ "SUPPRESSED: High risk (1.00) but low confidence (0.65) due to motion/artifacts."%string
               = "Normal status."%string)).
Proof.
  intros rf.
  apply (alert_comment_cases [scenario_window; saturated_window]
           default_risk_threshold default_confidence_threshold 1%nat).
  vm_compute. reflexivity.
Defined.

(** A window with an unknown mean never breaches, never alerts and blocks
    the alert of the next window. *)
Theorem unknown_vitals_never_alert (df : list AnomalyRow) (rt ct : Q) (i : nat)
    (r : AnomalyRow) :
  let rf := calculate_risk_and_alerts df rt ct in
  df !! i = Some r ->
  heart_rate_mean (feats r) = None \/ spo2_mean (feats r) = None
    \/ bp_systolic_mean (feats r) = None ->
  risk_score rf !! i = Some None
  /\ risk_threshold_breached rf !! i = Some false
  /\ alert_triggered rf !! i = Some false
  /\ alert_comment rf !! i = Some "Normal status."%string
  /\ (forall r', df !! S i = Some r' -> alert_triggered rf !! S i = Some false).
Proof.
  intros rf Hr Hnan. subst rf.
  assert (Hrisk : window_risk (feats r) = None).
  { unfold window_risk.
    destruct (heart_rate_mean (feats r)) as [hm|], (spo2_mean (feats r)) as [sm|],
      (bp_systolic_mean (feats r)) as [bm|];
      try (destruct Hnan as [H|[H|H]]; discriminate);
      cbn; destruct (_ && _); reflexivity. }
  split; [now rewrite (risk_score_lookup df rt ct i r Hr), Hrisk|].
  split; [now rewrite (risk_threshold_breached_lookup df rt ct i r Hr), Hrisk|].
  split.
  { rewrite (alert_triggered_lookup df rt ct i r Hr). unfold risk_row.
    cbn [row_alert_triggered]. now rewrite Hrisk. }
  split.
  { rewrite (alert_comment_lookup df rt ct i r Hr). unfold get_alert_comment, risk_row.
    cbn [row_alert_triggered row_risk_threshold_breached row_confidence_acceptable
         row_persistent_risk row_risk_score row_final_confidence row_anomaly].
    now rewrite Hrisk. }
  intros r' Hr'. rewrite (alert_triggered_lookup df rt ct (S i) r' Hr').
  unfold risk_row, prior_breach. cbn [row_alert_triggered].
  rewrite Hr, Hrisk. cbn [num_gt]. now rewrite andb_false_r.
Qed.

Lemma unknown_vitals_never_alert_witness :
  let rf := calculate_risk_and_alerts [unknown_window; saturated_window]
              default_risk_threshold default_confidence_threshold in
  risk_score rf !! 0%nat = Some None
  /\ risk_threshold_breached rf !! 0%nat = Some false
  /\ alert_triggered rf !! 0%nat = Some false
  /\ alert_comment rf !! 0%nat = Some "Normal status."%string
  /\ (forall r', [unknown_window; saturated_window] !! 1%nat = Some r' ->
        alert_triggered rf !! 1%nat = Some false).
Proof.
  apply (unknown_vitals_never_alert [unknown_window; saturated_window]
           default_risk_threshold default_confidence_threshold 0 unknown_window).
  - reflexivity.
  - left. reflexivity.
Defined.

Lemma Qclip_mono (lower upper a b : Q) :
  lower <= upper -> a <= b -> Qclip lower upper a <= Qclip lower upper b.
Proof.
  intros Hlu Hab. unfold Qclip.
  destruct (Qlt_bool a lower) eqn:Ea, (Qlt_bool b lower) eqn:Eb,
    (Qlt_bool upper a) eqn:Ea', (Qlt_bool upper b) eqn:Eb';
    try apply Qlt_bool_iff in Ea; try apply Qlt_bool_false in Ea;
    try apply Qlt_bool_iff in Eb; try apply Qlt_bool_false in Eb;
    try apply Qlt_bool_iff in Ea'; try apply Qlt_bool_false in Ea';
    try apply Qlt_bool_iff in Eb'; try apply Qlt_bool_false in Eb'; lra.
Qed.

Lemma Qclip_upper (lower upper a bound : Q) :
  lower <= bound -> a <= bound -> Qclip lower upper a <= bound.
Proof.
  intros Hl Ha. unfold Qclip.
  destruct (Qlt_bool a lower) eqn:E1; [lra|].
  destruct (Qlt_bool upper a) eqn:E2; [apply Qlt_bool_iff in E2; lra | lra].
Qed.

Lemma Qdiv_const_mono (a b c : Q) : 0 < c -> a <= b -> a / c <= b / c.
Proof.
  intros Hc Hab. unfold Qdiv. apply Qmult_le_compat_r; [exact Hab|].
  apply Qlt_le_weak, Qinv_lt_0_compat, Hc.
Qed.

Lemma Qdiv_const_nonpos (a c : Q) : 0 < c -> a <= 0 -> a / c <= 0.
Proof.
  intros Hc Ha. pose proof (Qdiv_const_mono a 0 c Hc Ha) as H.
  assert (E : 0 / c == 0) by (unfold Qdiv; ring). lra.
Qed.

(** The score never falls when the heart rate or the systolic pressure
    rises or the saturation falls, the slopes being equal. *)
Lemma window_risk_monotone (f1 f2 : Features) (h1 h2 s1 s2 b1 b2 : Q) :
  heart_rate_mean f1 = Some h1 -> heart_rate_mean f2 = Some h2 ->
  spo2_mean f1 = Some s1 -> spo2_mean f2 = Some s2 ->
  bp_systolic_mean f1 = Some b1 -> bp_systolic_mean f2 = Some b2 ->
  heart_rate_slope f1 = heart_rate_slope f2 -> spo2_slope f1 = spo2_slope f2 ->
  h1 <= h2 -> s2 <= s1 -> b1 <= b2 ->
  exists x1 x2, window_risk f1 = Some x1 /\ window_risk f2 = Some x2 /\ x1 <= x2.
Proof.
  intros Hh1 Hh2 Hs1 Hs2 Hb1 Hb2 Ehs Ess Hh Hs Hb.
  unfold window_risk. rewrite Hh1, Hh2, Hs1, Hs2, Hb1, Hb2, Ehs, Ess. cbn.
  set (ch1 := Qclip 0 1 ((h1 - 75) / (120 - 75))).
  set (ch2 := Qclip 0 1 ((h2 - 75) / (120 - 75))).
  set (cs1 := Qclip 0 1 ((98 - s1) / (98 - 90))).
  set (cs2 := Qclip 0 1 ((98 - s2) / (98 - 90))).
  set (cb1 := Qclip 0 1 ((b1 - 120) / (160 - 120))).
  set (cb2 := Qclip 0 1 ((b2 - 120) / (160 - 120))).
  assert (Hch : ch1 <= ch2).
  { apply Qclip_mono; [lra|]. apply Qdiv_const_mono; lra. }
  assert (Hcs : cs1 <= cs2).
  { apply Qclip_mono; [lra|]. apply Qdiv_const_mono; lra. }
  assert (Hcb : cb1 <= cb2).
  { apply Qclip_mono; [lra|]. apply Qdiv_const_mono; lra. }
  assert (Hscore : Qclip 0 1 (ch1 * 0.4 + cs1 * 0.4 + cb1 * 0.2)
                   <= Qclip 0 1 (ch2 * 0.4 + cs2 * 0.4 + cb2 * 0.2)).
  { apply Qclip_mono; lra. }
  destruct (num_gt (heart_rate_slope f2) 0.02 && num_lt (spo2_slope f2) (-0.005));
    cbn; do 2 eexists; (split; [reflexivity|]); (split; [reflexivity|]).
  - apply Qclip_mono; lra.
  - apply Qclip_mono; lra.
Qed.

Theorem risk_score_monotone (df1 df2 : list AnomalyRow) (rt ct : Q) (i : nat)
    (r1 r2 : AnomalyRow) (h1 h2 s1 s2 b1 b2 : Q) :
  df1 !! i = Some r1 -> df2 !! i = Some r2 ->
  heart_rate_mean (feats r1) = Some h1 -> heart_rate_mean (feats r2) = Some h2 ->
  spo2_mean (feats r1) = Some s1 -> spo2_mean (feats r2) = Some s2 ->
  bp_systolic_mean (feats r1) = Some b1 -> bp_systolic_mean (feats r2) = Some b2 ->
  heart_rate_slope (feats r1) = heart_rate_slope (feats r2) ->
  spo2_slope (feats r1) = spo2_slope (feats r2) ->
  h1 <= h2 -> s2 <= s1 -> b1 <= b2 ->
  exists x1 x2,
    risk_score (calculate_risk_and_alerts df1 rt ct) !! i = Some (Some x1)
    /\ risk_score (calculate_risk_and_alerts df2 rt ct) !! i = Some (Some x2)
    /\ x1 <= x2.
Proof.
  intros Hr1 Hr2 Hh1 Hh2 Hs1 Hs2 Hb1 Hb2 Ehs Ess Hh Hs Hb.
  destruct (window_risk_monotone (feats r1) (feats r2) h1 h2 s1 s2 b1 b2)
    as (x1 & x2 & E1 & E2 & Hle); try assumption.
  exists x1, x2.
  rewrite (risk_score_lookup df1 rt ct i r1 Hr1), (risk_score_lookup df2 rt ct i r2 Hr2).
  rewrite E1, E2. auto.
Qed.

Lemma risk_score_monotone_witness :
  exists x1 x2,
    risk_score (calculate_risk_and_alerts [scenario_window] default_risk_threshold
                  default_confidence_threshold) !! 0%nat = Some (Some x1)
    /\ risk_score (calculate_risk_and_alerts [saturated_window] default_risk_threshold
                     default_confidence_threshold) !! 0%nat = Some (Some x2)
    /\ x1 <= x2.
Proof.
  apply (risk_score_monotone [scenario_window] [saturated_window]
           default_risk_threshold default_confidence_threshold 0
           scenario_window saturated_window 115 130 90 85 118 170);
    try reflexivity; vm_compute; discriminate.
Defined.

(** One abnormal vital alone scores at most 0.48 and cannot breach a
    threshold of 0.48 or more, the default 0.6 among them. *)
Lemma window_risk_single_vital (f : Features) (h s b : Q) :
  heart_rate_mean f = Some h -> spo2_mean f = Some s -> bp_systolic_mean f = Some b ->
  (98 <= s /\ b <= 120) \/ (h <= 75 /\ b <= 120) \/ (h <= 75 /\ 98 <= s) ->
  exists x, window_risk f = Some x /\ x <= 0.48.
Proof.
  intros Hh Hs Hb Hone. unfold window_risk. rewrite Hh, Hs, Hb. cbn.
  set (ch := Qclip 0 1 ((h - 75) / (120 - 75))).
  set (cs := Qclip 0 1 ((98 - s) / (98 - 90))).
  set (cb := Qclip 0 1 ((b - 120) / (160 - 120))).
  pose proof (Qclip_bounds 0 1 ((h - 75) / (120 - 75)) ltac:(lra)) as Bh.
  pose proof (Qclip_bounds 0 1 ((98 - s) / (98 - 90)) ltac:(lra)) as Bs.
  pose proof (Qclip_bounds 0 1 ((b - 120) / (160 - 120)) ltac:(lra)) as Bb.
  fold ch in Bh. fold cs in Bs. fold cb in Bb.
  assert (Hzh : h <= 75 -> ch == 0).
  { intros H. apply Qclip_le_lower; [lra|].
    apply Qdiv_const_nonpos; lra. }
  assert (Hzs : 98 <= s -> cs == 0).
  { intros H. apply Qclip_le_lower; [lra|].
    apply Qdiv_const_nonpos; lra. }
  assert (Hzb : b <= 120 -> cb == 0).
  { intros H. apply Qclip_le_lower; [lra|].
    apply Qdiv_const_nonpos; lra. }
  assert (Hsum : ch * 0.4 + cs * 0.4 + cb * 0.2 <= 0.4).
  { destruct Hone as [[H1 H2]|[[H1 H2]|[H1 H2]]].
    - rewrite (Hzs H1), (Hzb H2). lra.
    - rewrite (Hzh H1), (Hzb H2). lra.
    - rewrite (Hzh H1), (Hzs H2). lra. }
  pose proof (Qclip_upper 0 1 _ 0.4 ltac:(lra) Hsum) as Hscore.
  pose proof (Qclip_bounds 0 1 (ch * 0.4 + cs * 0.4 + cb * 0.2) ltac:(lra)) as Bsc.
  destruct (num_gt (heart_rate_slope f) 0.02 && num_lt (spo2_slope f) (-0.005));
    cbn; eexists; (split; [reflexivity|]); apply Qclip_upper; lra.
Qed.

Theorem single_vital_never_breaches (df : list AnomalyRow) (rt ct : Q) (i : nat)
    (r : AnomalyRow) (h s b : Q) :
  let rf := calculate_risk_and_alerts df rt ct in
  df !! i = Some r -> 0.48 <= rt ->
  heart_rate_mean (feats r) = Some h -> spo2_mean (feats r) = Some s ->
  bp_systolic_mean (feats r) = Some b ->
  (98 <= s /\ b <= 120) \/ (h <= 75 /\ b <= 120) \/ (h <= 75 /\ 98 <= s) ->
  (exists x, risk_score rf !! i = Some (Some x) /\ x <= 0.48)
  /\ risk_threshold_breached rf !! i = Some false
  /\ alert_triggered rf !! i = Some false
  /\ alert_comment rf !! i = Some "Normal status."%string.
Proof.
  intros rf Hr Hrt Hh Hs Hb Hone. subst rf.
  destruct (window_risk_single_vital (feats r) h s b Hh Hs Hb Hone) as (x & Ex & Hx).
  assert (Hbr : num_gt (window_risk (feats r)) rt = false).
  { rewrite Ex. simpl. apply Qlt_bool_false. lra. }
  split; [exists x; now rewrite (risk_score_lookup df rt ct i r Hr), Ex|].
  split; [now rewrite (risk_threshold_breached_lookup df rt ct i r Hr), Hbr|].
  split.
  - rewrite (alert_triggered_lookup df rt ct i r Hr). unfold risk_row.
    cbn [row_alert_triggered]. now rewrite Hbr.
  - rewrite (alert_comment_lookup df rt ct i r Hr). unfold get_alert_comment, risk_row.
    cbn [row_alert_triggered row_risk_threshold_breached row_confidence_acceptable
         row_persistent_risk row_risk_score row_final_confidence row_anomaly].
    now rewrite Hbr.
Qed.

Lemma single_vital_never_breaches_witness :
  let rf := calculate_risk_and_alerts [tachycardia_window; tachycardia_window]
              default_risk_threshold default_confidence_threshold in
  (exists x, risk_score rf !! 1%nat = Some (Some x) /\ x <= 0.48)
  /\ risk_threshold_breached rf !! 1%nat = Some false
  /\ alert_triggered rf !! 1%nat = Some false
  /\ alert_comment rf !! 1%nat = Some "Normal status."%string.
Proof.
  apply (single_vital_never_breaches [tachycardia_window; tachycardia_window]
           default_risk_threshold default_confidence_threshold 1 tachycardia_window
           130 99 118); try reflexivity.
  - vm_compute. discriminate.
  - left. split; vm_compute; discriminate.
Defined.

(** The sensor stability lies between 0.5 and 1. *)
Lemma window_stability_bounds (f : Features) (st : Q) :
  window_stability f = Some st -> 0.5 <= st /\ st <= 1.
Proof.
  unfold window_stability. destruct (heart_rate_var f) as [v|]; [|discriminate].
  cbn. intros [= <-].
  pose proof (Qclip_bounds 0 0.5 (v / 100) ltac:(lra)). lra.
Qed.

(** The confidence gate: a window whose motion confidence [c] satisfies
    [0.7 c + 0.3 <= confidence_threshold] (or is unknown, or whose
    heart-rate variance is unknown) is never accepted and never alerts;
    with the default threshold 0.7 this is every [c <= 4/7]. *)
Theorem low_confidence_never_alerts (df : list AnomalyRow) (rt ct : Q) (i : nat)
    (r : AnomalyRow) :
  let rf := calculate_risk_and_alerts df rt ct in
  df !! i = Some r ->
  confidence r = None \/ heart_rate_var (feats r) = None
    \/ (exists c, confidence r = Some c /\ c * 0.7 + 0.3 <= ct) ->
  confidence_acceptable rf !! i = Some false
  /\ alert_triggered rf !! i = Some false
  /\ exists comment, alert_comment rf !! i = Some comment
       /\ (String.prefix "SUPPRESSED:" comment = true
           \/ comment = "Normal status."%string).
Proof.
  intros rf Hr Hlow. subst rf.
  assert (Hacc : num_gt (window_confidence r) ct = false).
  { unfold window_confidence.
    destruct (window_stability (feats r)) as [st|] eqn:Hst.
    - pose proof (window_stability_bounds _ _ Hst) as Bst.
      destruct Hlow as [-> | [Hv | (c & -> & Hc)]]; [reflexivity | |].
      + unfold window_stability in Hst. rewrite Hv in Hst. discriminate.
      + cbn. apply Qlt_bool_false. lra.
    - destruct (confidence r); reflexivity. }
  split; [now rewrite (confidence_acceptable_lookup df rt ct i r Hr), Hacc|].
  split.
  - rewrite (alert_triggered_lookup df rt ct i r Hr). unfold risk_row.
    cbn [row_alert_triggered]. now rewrite Hacc, andb_false_r.
  - rewrite (alert_comment_lookup df rt ct i r Hr). eexists. split; [reflexivity|].
    unfold get_alert_comment, risk_row.
    cbn [row_alert_triggered row_risk_threshold_breached row_confidence_acceptable
         row_persistent_risk row_risk_score row_final_confidence row_anomaly].
    rewrite Hacc, andb_false_r.
    destruct (num_gt (window_risk (feats r)) rt); cbn; [left | right]; reflexivity.
Qed.

Lemma low_confidence_never_alerts_witness :
  let rf := calculate_risk_and_alerts [saturated_window; saturated_window]
              default_risk_threshold default_confidence_threshold in
  confidence_acceptable rf !! 1%nat = Some false
  /\ alert_triggered rf !! 1%nat = Some false
  /\ exists comment, alert_comment rf !! 1%nat = Some comment
       /\ (String.prefix "SUPPRESSED:" comment = true
           \/ comment = "Normal status."%string).
Proof.
  apply (low_confidence_never_alerts [saturated_window; saturated_window]
           default_risk_threshold default_confidence_threshold 1 saturated_window).
  - reflexivity.
  - right. right. exists 0.5. split; [reflexivity | vm_compute; discriminate].
Defined.

(** * Further properties of anomaly_model.py *)

Lemma Qsum_opp (y : list Q) : Qsum (Qopp <$> y) == - Qsum y.
Proof.
  induction y as [|v y IH]; [reflexivity|].
  rewrite fmap_cons. cbn [Qsum foldr]. fold (Qsum (Qopp <$> y)). fold (Qsum y).
  rewrite IH. ring.
Qed.

Lemma Qsum_products_opp (x y : list Q) :
  Qsum (zip_with Qmult x (Qopp <$> y)) == - Qsum (zip_with Qmult x y).
Proof.
  revert y. induction x as [|u x IH]; intros [|v y]; try reflexivity.
  rewrite fmap_cons. cbn [zip_with Qsum foldr].
  fold (Qsum (zip_with Qmult x (Qopp <$> y))). fold (Qsum (zip_with Qmult x y)).
  rewrite IH. ring.
Qed.

Lemma cross_sum_opp (x y : list Q) : cross_sum x (Qopp <$> y) == - cross_sum x y.
Proof. unfold cross_sum. rewrite Qsum_products_opp, Qsum_opp. ring. Qed.

Lemma decreasing_opp (y : list Q) : decreasing y -> increasing (Qopp <$> y).
Proof.
  induction y as [|a [|b y] IH]; intros H; try exact I.
  destruct H as [Hab Hy]. rewrite !fmap_cons. split.
  - lra.
  - rewrite <- fmap_cons. apply IH, Hy.
Qed.

Lemma linregress_slope_neg (y : list Q) :
  (2 <= length y)%nat -> decreasing y ->
  linregress_slope (np_arange (length y)) y < 0.
Proof.
  intros Hn Hy. unfold linregress_slope.
  set (x := np_arange (length y)).
  assert (Hlen : length x = length y) by apply length_arange.
  assert (Hx : increasing x) by apply increasing_arange.
  rewrite (cov_cross_sum x x eq_refl ltac:(lia)).
  rewrite (cov_cross_sum x y Hlen ltac:(lia)).
  pose proof (cross_sum_pos x x Hx Hx eq_refl ltac:(lia)) as Hxx.
  pose proof (cross_sum_pos x (Qopp <$> y) Hx (decreasing_opp y Hy)
                ltac:(now rewrite length_fmap) ltac:(lia)) as Hxy.
  rewrite cross_sum_opp in Hxy.
  pose proof (nQ_pos (length x) ltac:(lia)) as Hq.
  set (n := nQ (length x)) in *.
  set (a := cross_sum x y) in *. set (b := cross_sum x x) in *.
  assert (E : a / (n * n) / (b / (n * n)) == a / b) by (field; split; lra).
  rewrite E.
  assert (0 < (- a) / b) by (apply Qlt_shift_div_l; lra).
  assert (E' : - a / b == - (a / b)) by (field; lra). lra.
Qed.





Lemma spo2_slope_eq (window : Clean.DataFrame) :
  spo2_slope (extract_features window) = (column_features (Clean.spo2 window)).2.
Proof.
  pose proof (extract_features_columns window) as H. cbv zeta in H.
  destruct H as (_ & H & _). now rewrite <- H.
Qed.


(** A strictly decreasing saturation series, on a window of at least two
    known samples, has a negative spo2_slope. *)
Theorem spo2_slope_negative (window : Clean.DataFrame) (vals : list Q) :
  Clean.spo2 window = Some <$> vals -> (2 <= length vals)%nat -> decreasing vals ->
  exists s, spo2_slope (extract_features window) = Some s /\ s < 0.
Proof.
  intros Hsp Hn Hdec.
  rewrite spo2_slope_eq, Hsp, (column_slope_known vals Hn).
  eexists. split; [reflexivity|]. now apply linregress_slope_neg.
Qed.

Lemma spo2_slope_negative_witness :
  exists s, spo2_slope
              (extract_features
                 (signals_window [Some 80; Some 80; Some 80] [Some 97; Some 95; Some 94]
                    [Some 120; Some 120; Some 120]))
            = Some s /\ s < 0.
Proof.
  apply (spo2_slope_negative
           (signals_window [Some 80; Some 80; Some 80] [Some 97; Some 95; Some 94]
              [Some 120; Some 120; Some 120])
           [97; 95; 94] eq_refl); [simpl; lia|].
  simpl. repeat split; reflexivity.
Defined.










(** ** The sliding-window loop *)

Lemma window_starts_lookup (length_df window_size step_size k start : nat) :
  window_starts length_df window_size step_size !! k = Some start ->
  start = (k * step_size)%nat.
Proof.
  unfold window_starts, py_range. intros H.
  apply list_lookup_fmap_Some in H as (j & -> & Hj).
  apply lookup_seq in Hj as [-> _]. reflexivity.
Qed.

Lemma length_window_starts (length_df window_size step_size : nat) :
  length (window_starts length_df window_size step_size)
  = Z.to_nat ((Z.of_nat length_df - Z.of_nat window_size + Z.of_nat step_size - 1)
              / Z.of_nat step_size).
Proof. unfold window_starts, py_range. now rewrite length_fmap, length_seq. Qed.

(** The timestamp of a window is that of its last sample. *)
Lemma last_slice {A} (l : list A) (start n : nat) :
  (0 < n)%nat -> (start + n <= length l)%nat ->
  last (take (start + n - start) (drop start l)) = l !! (start + n - 1)%nat.
Proof.
  intros Hn Hlen. rewrite last_lookup, length_take, length_drop.
  rewrite lookup_take, lookup_drop. case_decide; [f_equal|]; lia.
Qed.

Lemma detect_window_Some (df : Clean.DataFrame) (window_size start : nat) :
  (0 < window_size)%nat -> (start + window_size <= Clean.len df)%nat ->
  exists r, detect_window df window_size start = Some r
            /\ feats r = extract_features (Clean.iloc start (start + window_size) df)
            /\ Clean.timestamp df !! (start + window_size - 1)%nat = Some (timestamp r)
            /\ confidence r = confidence_mean (feats r)
            /\ reasons r = String.concat "; " (rule_reasons (feats r))
            /\ is_anomaly r = negb (length (rule_reasons (feats r)) =? 0)%nat.
Proof.
  intros Hw Hlen. unfold detect_window. cbn [Clean.iloc Clean.timestamp].
  rewrite (last_slice (Clean.timestamp df) start window_size Hw Hlen).
  destruct (lookup_lt_is_Some_2 (Clean.timestamp df) (start + window_size - 1)%nat)
    as [ts Hts]; [unfold Clean.len in Hlen; lia|].
  rewrite Hts. cbn. eexists. split; [reflexivity|]. cbn. auto 10.
Qed.

(** With a positive window and step, [detect_anomalies] returns one row for
    each start offset [0, S, 2S, ...] with [start + W < len(df)], in that
    order; the row carries the features of samples [start .. start + W - 1]
    and the timestamp of the last of them. *)
Theorem detect_anomalies_rows (df : Clean.DataFrame) (window_size step_size : nat) :
  (0 < window_size)%nat -> (0 < step_size)%nat ->
  exists rows,
    detect_anomalies df window_size step_size = Some rows
    /\ length rows
       = Z.to_nat ((Z.of_nat (Clean.len df) - Z.of_nat window_size
                    + Z.of_nat step_size - 1) / Z.of_nat step_size)
    /\ (forall start, (start + window_size < Clean.len df)%nat ->
          (exists k, start = (k * step_size)%nat) ->
          exists k r, start = (k * step_size)%nat /\ rows !! k = Some r)
    /\ forall k r, rows !! k = Some r ->
         ((k * step_size) + window_size < Clean.len df)%nat
         /\ feats r = extract_features
                        (Clean.iloc (k * step_size) (k * step_size + window_size) df)
         /\ Clean.timestamp df !! (k * step_size + window_size - 1)%nat
            = Some (timestamp r)
         /\ confidence r = confidence_mean (feats r).
Proof.
  intros Hw Hs. unfold detect_anomalies.
  destruct (Nat.eqb_spec step_size 0) as [H0|_]; [lia|].
  set (starts := window_starts (Clean.len df) window_size step_size).
  assert (Hin : forall k start, starts !! k = Some start ->
            start = (k * step_size)%nat /\ (start + window_size < Clean.len df)%nat).
  { intros k start Hk. split; [now apply window_starts_lookup in Hk|].
    apply list_elem_of_lookup_2, window_starts_spec in Hk; [|exact Hs]. tauto. }
  destruct (mapM (detect_window df window_size) starts) as [rows|] eqn:Hrows.
  2:{ exfalso. apply eq_None_not_Some in Hrows. apply Hrows, mapM_is_Some.
      apply Forall_lookup. intros k start Hk. destruct (Hin k start Hk) as [_ Hlt].
      destruct (detect_window_Some df window_size start Hw ltac:(lia)) as (r & Hr & _).
      unfold compose. rewrite Hr. eauto. }
  apply mapM_Some in Hrows. exists rows. split; [reflexivity|].
  split; [rewrite <- (Forall2_length _ _ _ Hrows); apply length_window_starts|].
  split.
  - intros start Hlt [k ->].
    assert (Hel : (k * step_size)%nat ∈ starts).
    { apply window_starts_spec; [exact Hs|]. split; [eauto | exact Hlt]. }
    apply list_elem_of_lookup in Hel as [k' Hk'].
    destruct (Forall2_lookup_l _ _ _ _ _ Hrows Hk') as (r & Hr & _).
    destruct (Hin k' _ Hk') as [E _].
    exists k', r. split; [exact E | exact Hr].
  - intros k r Hr.
    destruct (Forall2_lookup_r _ _ _ _ _ Hrows Hr) as (start & Hk & Hdw).
    destruct (Hin k start Hk) as [-> Hlt].
    destruct (detect_window_Some df window_size (k * step_size) Hw ltac:(lia))
      as (r' & Hr' & H1 & H2 & H3 & _).
    rewrite Hdw in Hr'. injection Hr' as <-. auto.
Qed.

Lemma detect_anomalies_rows_witness :
  exists rows,
    detect_anomalies (detect_and_clean_artifacts (steady_samples 12) default_motion_threshold)
      4 3 = Some rows
    /\ length rows = 3%nat.
Proof.
  destruct (detect_anomalies_rows
              (detect_and_clean_artifacts (steady_samples 12) default_motion_threshold)
              4 3 ltac:(lia) ltac:(lia)) as (rows & H1 & H2 & _).
  exists rows. split; [exact H1|]. rewrite H2. reflexivity.
Defined.

(** [detect_anomalies] raises exactly for a zero step (refused by [range])
    and for a zero window size on a non-empty frame (no last timestamp). *)
Theorem detect_anomalies_raises_iff (df : Clean.DataFrame) (window_size step_size : nat) :
  detect_anomalies df window_size step_size = None
  <-> step_size = 0%nat \/ (window_size = 0%nat /\ (0 < Clean.len df)%nat).
Proof.
  split.
  - intros Hnone.
    destruct (Nat.eq_dec step_size 0%nat) as [|Hs]; [now left|]. right.
    destruct (Nat.eq_dec window_size 0%nat) as [->|Hw].
    + split; [reflexivity|].
      destruct (Nat.eq_dec (Clean.len df) 0%nat) as [H0|]; [|lia].
      exfalso. unfold detect_anomalies in Hnone.
      destruct (Nat.eqb_spec step_size 0) as [|_]; [lia|].
      assert (E : window_starts (Clean.len df) 0 step_size = []).
      { apply length_zero_iff_nil. rewrite length_window_starts, H0.
        rewrite Z.div_small by lia. reflexivity. }
      rewrite E in Hnone. discriminate.
    + exfalso.
      destruct (detect_anomalies_rows df window_size step_size) as (rows & Hr & _);
        [lia | lia |]. congruence.
  - intros [-> | [-> Hlen]]; [reflexivity|].
    unfold detect_anomalies.
    destruct (Nat.eqb_spec step_size 0) as [|Hs]; [reflexivity|].
    apply eq_None_not_Some. intros Hsome. apply mapM_is_Some in Hsome.
    assert (Hel : 0%nat ∈ window_starts (Clean.len df) 0 step_size).
    { apply window_starts_spec; [lia|]. split; [exists 0%nat; lia | lia]. }
    rewrite Forall_forall in Hsome. specialize (Hsome 0%nat Hel).
    unfold detect_window in Hsome. cbn in Hsome. destruct Hsome as [x Hx]. discriminate.
Qed.

(** ** The detection rules *)

Lemma rule_reasons_cases (f : Features) :
  let hr := num_gt (heart_rate_slope f) 0.05 && num_gt (heart_rate_mean f) 100 in
  let sp := num_lt (spo2_slope f) (-0.01) && num_lt (spo2_mean f) 95 in
  let bp := num_gt (bp_systolic_slope f) 0.1 && num_gt (bp_systolic_mean f) 140 in
  negb (length (rule_reasons f) =? 0)%nat = hr || sp || bp
  /\ (hr || sp || bp = false <-> String.concat "; " (rule_reasons f) = ""%string)
  /\ (hr = false -> sp = false ->
      String.concat "; " (rule_reasons f) = ""%string
      \/ String.concat "; " (rule_reasons f) = "Rising Systolic BP"%string).
Proof.
  unfold rule_reasons.
  destruct (num_gt (heart_rate_slope f) 0.05 && num_gt (heart_rate_mean f) 100),
    (num_lt (spo2_slope f) (-0.01) && num_lt (spo2_mean f) 95),
    (num_gt (bp_systolic_slope f) 0.1 && num_gt (bp_systolic_mean f) 140);
    cbn; (split; [reflexivity|]); (split; [split; intros H; (reflexivity || discriminate)|]);
    intros H1 H2; try discriminate; auto.
Qed.

Lemma detect_anomalies_row (df : Clean.DataFrame) (window_size step_size : nat)
    (rows : list AnomalyRow) (k : nat) (r : AnomalyRow) :
  detect_anomalies df window_size step_size = Some rows -> rows !! k = Some r ->
  detect_window df window_size (k * step_size) = Some r.
Proof.
  unfold detect_anomalies. destruct (step_size =? 0)%nat; [discriminate|].
  intros Hrows Hr. apply mapM_Some in Hrows.
  destruct (Forall2_lookup_r _ _ _ _ _ Hrows Hr) as (start & Hk & Hdw).
  apply window_starts_lookup in Hk. now subst start.
Qed.

Lemma detect_window_fields (df : Clean.DataFrame) (window_size start : nat)
    (r : AnomalyRow) :
  detect_window df window_size start = Some r ->
  feats r = extract_features (Clean.iloc start (start + window_size) df)
  /\ reasons r = String.concat "; " (rule_reasons (feats r))
  /\ is_anomaly r = negb (length (rule_reasons (feats r)) =? 0)%nat
  /\ confidence r = confidence_mean (feats r).
Proof.
  unfold detect_window. destruct (last _) as [ts|]; [|discriminate].
  cbn. intros [= <-]. cbn. auto.
Qed.

(** In every row of [detect_anomalies], [is_anomaly] is the disjunction of
    the three rules on the row's features, and it is false exactly when the
    [reasons] string is empty. *)
Theorem anomaly_flag_matches_reasons (df : Clean.DataFrame) (window_size step_size : nat)
    (rows : list AnomalyRow) (k : nat) (r : AnomalyRow) :
  detect_anomalies df window_size step_size = Some rows -> rows !! k = Some r ->
  let f := feats r in
  is_anomaly r
  = (num_gt (heart_rate_slope f) 0.05 && num_gt (heart_rate_mean f) 100)
    || (num_lt (spo2_slope f) (-0.01) && num_lt (spo2_mean f) 95)
    || (num_gt (bp_systolic_slope f) 0.1 && num_gt (bp_systolic_mean f) 140)
  /\ (is_anomaly r = false <-> reasons r = ""%string).
Proof.
  intros Hrows Hr f. subst f.
  pose proof (detect_anomalies_row _ _ _ _ _ _ Hrows Hr) as Hdw.
  destruct (detect_window_fields _ _ _ _ Hdw) as (_ & Hreasons & Hflag & _).
  pose proof (rule_reasons_cases (feats r)) as H. cbv zeta in H.
  destruct H as (H1 & H2 & _).
  rewrite Hflag, Hreasons, H1. split; [reflexivity | exact H2].
Qed.

Lemma anomaly_flag_matches_reasons_witness :
  exists r,
    (is_anomaly r = false <-> reasons r = ""%string)
    /\ is_anomaly r = false.
Proof.
  destruct (detect_anomalies
              (detect_and_clean_artifacts (steady_samples 12) default_motion_threshold) 4 3)
    as [rows|] eqn:Hrows; [|vm_compute in Hrows; discriminate].
  destruct (rows !! 0%nat) as [r|] eqn:Hr.
  - exists r.
    destruct (anomaly_flag_matches_reasons _ 4 3 rows 0 r Hrows Hr) as [H1 H2].
    split; [exact H2|]. rewrite H1.
    vm_compute in Hrows. injection Hrows as <-. injection Hr as <-. reflexivity.
  - vm_compute in Hrows. injection Hrows as <-. discriminate.
Defined.

(** A window with an unknown heart rate and an unknown saturation can only
    be reported for systolic pressure: its slopes are 0 and its means NaN,
    so the first two rules cannot fire. *)
Theorem unknown_window_only_reports_pressure (df : Clean.DataFrame)
    (window_size step_size : nat) (rows : list AnomalyRow) (k : nat) (r : AnomalyRow) :
  detect_anomalies df window_size step_size = Some rows -> rows !! k = Some r ->
  let window := Clean.iloc (k * step_size) (k * step_size + window_size) df in
  None ∈ Clean.heart_rate window -> None ∈ Clean.spo2 window ->
  reasons r = ""%string \/ reasons r = "Rising Systolic BP"%string.
Proof.
  intros Hrows Hr window Hhr Hsp. subst window.
  pose proof (detect_anomalies_row _ _ _ _ _ _ Hrows Hr) as Hdw.
  destruct (detect_window_fields _ _ _ _ Hdw) as (Hf & Hreasons & _).
  pose proof (extract_features_columns
                (Clean.iloc (k * step_size) (k * step_size + window_size) df)) as Hc.
  cbv zeta in Hc. destruct Hc as (Ehr & Esp & _).
  destruct (column_features_unknown _ Hhr) as (H1 & _ & _).
  destruct (column_features_unknown _ Hsp) as (H2 & _ & _).
  rewrite <- Ehr in H1. rewrite <- Esp in H2. cbn [fst snd] in H1, H2.
  pose proof (rule_reasons_cases (feats r)) as H. cbv zeta in H.
  destruct H as (_ & _ & H3).
  rewrite Hreasons. apply H3; rewrite Hf.
  - rewrite H1. apply andb_false_r.
  - rewrite H2. apply andb_false_r.
Qed.

Lemma unknown_window_only_reports_pressure_witness :
  exists rows r,
    detect_anomalies
      (detect_and_clean_artifacts long_gap_samples default_motion_threshold) 5 3 = Some rows
    /\ rows !! 9%nat = Some r
    /\ (reasons r = ""%string \/ reasons r = "Rising Systolic BP"%string).
Proof.
  destruct (detect_anomalies
              (detect_and_clean_artifacts long_gap_samples default_motion_threshold) 5 3)
    as [rows|] eqn:Hrows; [|vm_compute in Hrows; discriminate].
  destruct (rows !! 9%nat) as [r|] eqn:Hr.
  - exists rows, r. split; [reflexivity|]. split; [exact Hr|].
    apply (unknown_window_only_reports_pressure _ 5 3 rows 9 r Hrows Hr).
    + apply list_elem_of_lookup. exists 4%nat. vm_compute. reflexivity.
    + apply list_elem_of_lookup. exists 4%nat. vm_compute. reflexivity.
  - vm_compute in Hrows. injection Hrows as <-. discriminate.
Defined.
